(** * Network Canary: a shallow embedding of [network-canary.py]

    The script probes one host in an endless loop, tracks an UP/DOWN
    reachability state, and posts an outage summary to a webhook when the
    network comes back.  This development embeds the five functions of the
    script ([load_webhook_url], [ping], [format_duration],
    [send_discord_notification], [monitor_network]) and proves properties of
    them.

    Conventions of the embedding:
    - a Python [str] is a list of Unicode code points ([str]);
    - a [datetime] is an instant counted in microseconds on its own time
      line, a [timedelta] a signed number of microseconds;
    - every call that leaves the process (reading the credential file,
      [subprocess.run], [datetime.now], [requests.post], [time.sleep]) gets
      its answer from an [environment]: the k-th call of a primitive
      receives the k-th reply of that primitive, which either completes
      with a value or raises an exception ([KeyboardInterrupt] included);
    - writing to standard output is assumed to succeed;
    - effects are recorded, in order, in a trace of [event]s. *)

From Stdlib Require Import String Ascii ZArith NArith Bool List Lia.
From Stdlib Require Import DecimalString.
Import ListNotations.
Open Scope Z_scope.

(** ** Text *)

(** A Python [str]: the sequence of its code points. *)
Definition str : Type := list N.

(** A literal of the source; the literals written this way are ASCII. *)
Definition lit (s : string) : str :=
  map N_of_ascii (list_ascii_of_string s).
Arguments lit s%_string.

Definition str_eqb (a b : str) : bool :=
  if list_eq_dec N.eq_dec a b then true else false.

(** [str(n)] for an [int]. *)
Definition str_of_int (n : Z) : str :=
  lit (NilZero.string_of_int (Z.to_int n)).

(** [sep.join(parts)]. *)
Fixpoint join (sep : str) (parts : list str) : str :=
  match parts with
  | [] => []
  | [p] => p
  | p :: rest => p ++ sep ++ join sep rest
  end.

(** [s.startswith(prefix)]. *)
Fixpoint startswith (s prefix : str) : bool :=
  match prefix, s with
  | [], _ => true
  | _ :: _, [] => false
  | p :: prefix', c :: s' => N.eqb c p && startswith s' prefix'
  end.

(** [c.isspace()] on one code point: the characters CPython's
    [_PyUnicode_IsWhitespace] accepts. *)
Definition isspace (c : N) : bool :=
  ((9 <=? c) && (c <=? 13) ||
   (28 <=? c) && (c <=? 32) ||
   (c =? 133) || (c =? 160) || (c =? 5760) ||
   (8192 <=? c) && (c <=? 8202) ||
   (c =? 8232) || (c =? 8233) || (c =? 8239) || (c =? 8287) ||
   (c =? 12288))%N.

Fixpoint lstrip (s : str) : str :=
  match s with
  | [] => []
  | c :: s' => if isspace c then lstrip s' else s
  end.

Definition rstrip (s : str) : str := rev (lstrip (rev s)).

(** [s.strip()]. *)
Definition strip (s : str) : str := rstrip (lstrip s).

(** [s.lower()], on the letters A-Z.  The script applies it to the platform
    name only, to compare the result with "windows" and with "darwin".
    Python also lower-cases letters outside ASCII; a name that holds one
    equals neither word, there as here (the two characters whose lower case
    holds an ASCII letter give "k", and "i" followed by a combining dot). *)
Definition lower (s : str) : str :=
  map (fun c => if ((65 <=? c) && (c <=? 90))%N then (c + 32)%N else c) s.

(** [s * n] for a one-piece string. *)
Definition str_repeat (s : str) (n : nat) : str := List.concat (repeat s n).

(** ** Time *)

Definition datetime : Type := Z.
Definition timedelta : Type := Z.

(** [timedelta(seconds=n)]. *)
Definition timedelta_seconds (n : Z) : timedelta := n * 1000000.

(** [int(d.total_seconds())]: [int] truncates towards zero.  The float of
    [total_seconds()] is taken at its exact value, which is what Python
    computes for spans below five centuries. *)
Definition int_total_seconds (d : timedelta) : Z := Z.quot d 1000000.

(** ** Configuration *)

Definition PING_TARGET : str := lit "1.1.1.1".
Definition PING_INTERVAL : Z := 5.
Definition PING_TIMEOUT : Z := 3.
Definition WEBHOOK_FILE : str := lit "webhook-secret".

(** ** [format_duration] *)

Definition plural (n : Z) : str := if negb (n =? 1) then lit "s" else lit "".

Definition format_duration (duration : timedelta) : str :=
  let total_seconds := int_total_seconds duration in
  let hours := total_seconds / 3600 in
  let minutes := (total_seconds mod 3600) / 60 in
  let seconds := total_seconds mod 60 in
  let parts := [] in
  let parts :=
    if 0 <? hours
    then parts ++ [str_of_int hours ++ lit " hour" ++ plural hours]
    else parts in
  let parts :=
    if 0 <? minutes
    then parts ++ [str_of_int minutes ++ lit " minute" ++ plural minutes]
    else parts in
  let parts :=
    if (0 <? seconds) || (match parts with [] => true | _ => false end)
    then parts ++ [str_of_int seconds ++ lit " second" ++ plural seconds]
    else parts in
  join (lit ", ") parts.

(** ** Exceptions *)

(** The exception classes the script meets.  [KeyboardInterrupt] and
    [SystemExit] derive from [BaseException] only; the others derive from
    [Exception], [OtherError] standing for every class not named here
    ([OSError], [requests.RequestException], [MemoryError], ...). *)
Inductive exn : Type :=
| KeyboardInterrupt
| SystemExit (code : Z)
| FileNotFoundError (msg : str)
| TimeoutExpired (msg : str)
| TypeError (msg : str)
| OtherError (msg : str).

(** [isinstance(e, Exception)]. *)
Definition is_Exception (e : exn) : bool :=
  match e with
  | KeyboardInterrupt | SystemExit _ => false
  | _ => true
  end.

(** [str(e)]. *)
Definition exn_str (e : exn) : str :=
  match e with
  | KeyboardInterrupt => []
  | SystemExit code => str_of_int code
  | FileNotFoundError msg | TimeoutExpired msg
  | TypeError msg | OtherError msg => msg
  end.

(** ** The outside world *)

(** What a call to the outside does: it completes with a value or raises. *)
Inductive reply (A : Type) : Type :=
| Done (a : A)
| Fails (e : exn).
Arguments Done {A} a.
Arguments Fails {A} e.

(** The body handed to [requests.post(url, json=...)]. *)
#[warnings="-register-all"]
Inductive json : Type :=
| JStr (s : str)
| JInt (n : Z)
| JBool (b : bool)
| JList (items : list json)
| JDict (fields : list (str * json)).

(** Observable effects, in the order the process performs them. *)
Inductive event : Type :=
| Write (text : str)
| Run (command : list str) (timeout : Z)
| Post (url : str) (body : json) (timeout : Z)
| Sleep (seconds : Z).

(** Everything the script takes from outside: the platform, the library's
    rendering of instants, the credential file, and one reply per call of
    each primitive (the k-th call gets reply number k, from 0). *)
Record environment : Type := {
  platform_system : str;
  platform_release : str;
  strftime : datetime -> str -> str;
  isoformat : datetime -> str;
  webhook_file : reply str;
  run_reply : nat -> reply Z;
  now_reply : nat -> reply datetime;
  utcnow_reply : nat -> reply datetime;
  post_reply : nat -> reply Z;
  sleep_reply : nat -> reply unit
}.

(** How many calls of each primitive were made so far. *)
Record calls : Type := {
  runs : nat;
  clock_reads : nat;
  utc_clock_reads : nat;
  posts : nat;
  sleeps : nat
}.

(** The process: the two variables of [monitor_network] that outlive a
    tick, the trace (oldest event first) and the call counters. *)
Record machine : Type := {
  network_is_up : bool;
  downtime_start : option datetime;
  trace : list event;
  made : calls
}.

Definition boot : machine :=
  {| network_is_up := true; downtime_start := None; trace := [];
     made := {| runs := 0; clock_reads := 0; utc_clock_reads := 0;
                posts := 0; sleeps := 0 |} |}.

(** ** The monad of the script: state, then exceptions *)

Inductive outcome (A : Type) : Type :=
| Ret (a : A)
| Raise (e : exn).
Arguments Ret {A} a.
Arguments Raise {A} e.

Definition M (A : Type) : Type := machine -> outcome A * machine.

Definition ret {A} (a : A) : M A := fun m => (Ret a, m).

Definition raise {A} (e : exn) : M A := fun m => (Raise e, m).

Definition bind {A B} (c : M A) (k : A -> M B) : M B :=
  fun m =>
    match c m with
    | (Ret a, m') => k a m'
    | (Raise e, m') => (Raise e, m')
    end.

Declare Scope canary_scope.
Delimit Scope canary_scope with canary.
Notation "x <- c ;; k" := (bind c (fun x => k))
  (at level 61, c at next level, right associativity) : canary_scope.
Notation "c ;; k" := (bind c (fun _ => k))
  (at level 61, right associativity) : canary_scope.
Open Scope canary_scope.

(** [try: body  except ...: ...]: [handler e] is [Some h] when one of the
    [except] clauses matches [e] (the first that does), and [None] when the
    exception passes through.  An exception raised by [h] is not offered to
    the clauses again. *)
Definition try_except {A} (body : M A) (handler : exn -> option (M A)) : M A :=
  fun m =>
    match body m with
    | (Ret a, m') => (Ret a, m')
    | (Raise e, m') =>
        match handler e with
        | Some h => h m'
        | None => (Raise e, m')
        end
    end.

(** [sys.exit(code)]. *)
Definition sys_exit {A} (code : Z) : M A := raise (SystemExit code).

Definition answer {A} (r : reply A) : M A :=
  fun m =>
    (match r with
     | Done a => Ret a
     | Fails e => Raise e
     end, m).

Definition emit (e : event) : M unit :=
  fun m =>
    (Ret tt,
     {| network_is_up := network_is_up m; downtime_start := downtime_start m;
        trace := trace m ++ [e]; made := made m |}).

Definition count (bump : calls -> calls) : M unit :=
  fun m =>
    (Ret tt,
     {| network_is_up := network_is_up m; downtime_start := downtime_start m;
        trace := trace m; made := bump (made m) |}).

Definition calls_made : M calls := fun m => (Ret (made m), m).

Definition get_network_is_up : M bool := fun m => (Ret (network_is_up m), m).

Definition get_downtime_start : M (option datetime) :=
  fun m => (Ret (downtime_start m), m).

Definition set_network_is_up (b : bool) : M unit :=
  fun m =>
    (Ret tt,
     {| network_is_up := b; downtime_start := downtime_start m;
        trace := trace m; made := made m |}).

Definition set_downtime_start (d : option datetime) : M unit :=
  fun m =>
    (Ret tt,
     {| network_is_up := network_is_up m; downtime_start := d;
        trace := trace m; made := made m |}).

Definition NL : str := [10%N].
Definition CR : str := [13%N].

(** [print(s, end=e)] and [print(s)]. *)
Definition print_end (s e : str) : M unit := emit (Write (s ++ e)).
Definition print (s : str) : M unit := print_end s NL.

(** [a - b] on instants, where [b] may still be [None]. *)
Definition datetime_sub (a : datetime) (b : option datetime) : M timedelta :=
  match b with
  | Some b' => ret (a - b')
  | None =>
      raise (TypeError (lit
        "unsupported operand type(s) for -: 'datetime.datetime' and 'NoneType'"))
  end.

(** [d.strftime(...)] on a variable that may still be [None]. *)
Definition the_datetime (d : option datetime) : M datetime :=
  match d with
  | Some d' => ret d'
  | None =>
      raise (OtherError (lit "'NoneType' object has no attribute 'strftime'"))
  end.

(** ** The script *)

Section Script.

Variable E : environment.

(** *** Calls to the outside *)

(** [open(WEBHOOK_FILE, 'r')] followed by [f.read()]. *)
Definition read_file (name : str) : M str := answer (webhook_file E).

(** [subprocess.run(command, ..., timeout=t).returncode]. *)
Definition subprocess_run (command : list str) (t : Z) : M Z :=
  c <- calls_made ;;
  emit (Run command t) ;;
  count (fun c =>
    {| runs := S (runs c); clock_reads := clock_reads c;
       utc_clock_reads := utc_clock_reads c; posts := posts c;
       sleeps := sleeps c |}) ;;
  answer (run_reply E (runs c)).

(** [datetime.now()]. *)
Definition datetime_now : M datetime :=
  c <- calls_made ;;
  count (fun c =>
    {| runs := runs c; clock_reads := S (clock_reads c);
       utc_clock_reads := utc_clock_reads c; posts := posts c;
       sleeps := sleeps c |}) ;;
  answer (now_reply E (clock_reads c)).

(** [datetime.now(timezone.utc)]. *)
Definition datetime_now_utc : M datetime :=
  c <- calls_made ;;
  count (fun c =>
    {| runs := runs c; clock_reads := clock_reads c;
       utc_clock_reads := S (utc_clock_reads c); posts := posts c;
       sleeps := sleeps c |}) ;;
  answer (utcnow_reply E (utc_clock_reads c)).

(** [requests.post(url, json=body, timeout=t).status_code]. *)
Definition requests_post (url : str) (body : json) (t : Z) : M Z :=
  c <- calls_made ;;
  emit (Post url body t) ;;
  count (fun c =>
    {| runs := runs c; clock_reads := clock_reads c;
       utc_clock_reads := utc_clock_reads c; posts := S (posts c);
       sleeps := sleeps c |}) ;;
  answer (post_reply E (posts c)).

(** [time.sleep(seconds)]. *)
Definition time_sleep (seconds : Z) : M unit :=
  c <- calls_made ;;
  emit (Sleep seconds) ;;
  count (fun c =>
    {| runs := runs c; clock_reads := clock_reads c;
       utc_clock_reads := utc_clock_reads c; posts := posts c;
       sleeps := S (sleeps c) |}) ;;
  answer (sleep_reply E (sleeps c)).

(** *** [load_webhook_url] *)

Definition load_webhook_url : M str :=
  try_except
    (content <- read_file WEBHOOK_FILE ;;
     let url := strip content in
     if negb (str_eqb url []) && negb (startswith url (lit "http"))
     then
       print (lit "Error: Invalid webhook URL in " ++ WEBHOOK_FILE) ;;
       sys_exit 1
     else ret url)
    (fun e =>
       match e with
       | FileNotFoundError _ =>
           Some (print (lit "Error: " ++ WEBHOOK_FILE ++ lit " not found") ;;
                 sys_exit 1)
       | _ => None
       end).

(** *** [ping] *)

Definition ping_command (host : str) (timeout : Z) : list str :=
  let system := lower (platform_system E) in
  if str_eqb system (lit "windows")
  then [lit "ping"; lit "-n"; lit "1"; lit "-w";
        str_of_int (timeout * 1000); host]
  else if str_eqb system (lit "darwin")
  then [lit "ping"; lit "-c"; lit "1"; lit "-W";
        str_of_int (timeout * 1000); host]
  else [lit "ping"; lit "-c"; lit "1"; lit "-W"; str_of_int timeout; host].

Definition ping (host : str) (timeout : Z) : M bool :=
  try_except
    (let command := ping_command host timeout in
     returncode <- subprocess_run command (timeout + 1) ;;
     ret (returncode =? 0))
    (fun e =>
       match e with
       | TimeoutExpired _ => Some (ret false)
       | _ =>
           if is_Exception e
           then Some (print (lit " !! Ping error: " ++ exn_str e) ;; ret false)
           else None
       end).

(** *** [send_discord_notification] *)

Definition notification (started restored duration_str stamp : str) : json :=
  JDict [(lit "embeds", JList [JDict [
    (lit "title", JStr (127760%N :: lit " Network Restored"));
    (lit "description",
       JStr (lit "Network connectivity has been restored after being down for **"
             ++ duration_str ++ lit "**."));
    (lit "color", JInt 3066993);
    (lit "fields", JList [
       JDict [(lit "name", JStr (lit "Downtime Started"));
              (lit "value", JStr started);
              (lit "inline", JBool true)];
       JDict [(lit "name", JStr (lit "Network Restored"));
              (lit "value", JStr restored);
              (lit "inline", JBool true)];
       JDict [(lit "name", JStr (lit "Total Downtime"));
              (lit "value", JStr duration_str);
              (lit "inline", JBool false)]]);
    (lit "timestamp", JStr stamp)]])].

Definition send_discord_notification (webhook_url : str)
    (downtime_start : option datetime) (downtime_end : datetime)
    (duration : timedelta) : M bool :=
  let duration_str := format_duration duration in
  started <- the_datetime downtime_start ;;
  generated <- datetime_now_utc ;;
  let message :=
    notification (strftime E started (lit "%Y-%m-%d %H:%M:%S"))
                 (strftime E downtime_end (lit "%Y-%m-%d %H:%M:%S"))
                 duration_str (isoformat E generated) in
  try_except
    (status_code <- requests_post webhook_url message 10 ;;
     if status_code =? 204
     then
       print (lit " ++ Discord notification sent successfully") ;;
       ret true
     else
       print (lit " !! Discord notification failed: "
              ++ str_of_int status_code) ;;
       ret false)
    (fun e =>
       if is_Exception e
       then Some (print (lit " !! Error sending Discord notification: "
                         ++ exn_str e) ;;
                  ret false)
       else None).

(** *** [monitor_network] *)

(** The body of the [try] statement of the loop. *)
Definition tick_body (webhook_url : str) : M unit :=
  is_reachable <- ping PING_TARGET PING_TIMEOUT ;;
  current_time <- datetime_now ;;
  (if is_reachable : bool
   then
     up <- get_network_is_up ;;
     if negb up
     then
       let downtime_end := current_time in
       started <- get_downtime_start ;;
       duration <- datetime_sub downtime_end started ;;
       print (NL ++ lit " ++ Network restored at "
              ++ strftime E current_time (lit "%H:%M:%S")) ;;
       print (lit " ++ Downtime duration: " ++ format_duration duration) ;;
       send_discord_notification webhook_url started downtime_end duration ;;
       set_network_is_up true ;;
       set_downtime_start None ;;
       print (str_repeat (lit "-") 50)
     else
       print_end (lit " ++ " ++ strftime E current_time (lit "%H:%M:%S")
                  ++ lit " - Network OK") CR
   else
     up <- get_network_is_up ;;
     if up
     then
       set_network_is_up false ;;
       set_downtime_start (Some current_time) ;;
       print (NL ++ lit " ++ Network down detected at "
              ++ strftime E current_time (lit "%H:%M:%S")) ;;
       print_end (lit " ++ Monitoring downtime...") []
     else
       started <- get_downtime_start ;;
       elapsed <- datetime_sub current_time started ;;
       print_end (CR ++ lit " ++ Network down for: "
                  ++ format_duration elapsed) []) ;;
  time_sleep PING_INTERVAL.

(** Its two [except] clauses. *)
Definition tick_handler (e : exn) : option (M unit) :=
  match e with
  | KeyboardInterrupt => Some (sys_exit 0)
  | _ =>
      if is_Exception e
      then Some (print (NL ++ lit " !! Unexpected error: " ++ exn_str e) ;;
                 time_sleep PING_INTERVAL)
      else None
  end.

(** One iteration of the [while True] loop. *)
Definition tick (webhook_url : str) : M unit :=
  try_except (tick_body webhook_url) tick_handler.

(** [while True: body], cut after [ticks] iterations.  The loop has no
    [break]: it is left by an exception only, so [Ret tt] means that the
    loop is still running when the budget of iterations is used up. *)
Fixpoint while_true (ticks : nat) (body : M unit) : M unit :=
  match ticks with
  | O => ret tt
  | S n => body ;; while_true n body
  end.

Definition banner : M unit :=
  print (lit " ") ;;
  print ([32; 128330; 65039]%N ++ lit "  Network Canary starting...") ;;
  print (lit " ") ;;
  print (lit " ++ Platform: " ++ platform_system E ++ lit " "
         ++ platform_release E) ;;
  print (lit " ++ Monitoring connectivity to " ++ PING_TARGET) ;;
  print (lit " ++ Ping interval: " ++ str_of_int PING_INTERVAL
         ++ lit " seconds") ;;
  print (lit " ++ Discord webhook configured") ;;
  print (lit " ") ;;
  print (str_repeat (lit "-") 20) ;;
  print (str_repeat (lit "-") 20) ;;
  print (lit " ").

Definition monitor_network (ticks : nat) : M unit :=
  webhook_url <- load_webhook_url ;;
  banner ;;
  set_network_is_up true ;;
  set_downtime_start None ;;
  while_true ticks (tick webhook_url).

End Script.

(** The process as the operating system sees it: [None] while it runs, the
    exit status once an exception has left [monitor_network].  [SystemExit]
    carries the status; an uncaught [KeyboardInterrupt] ends the process
    through the interrupt signal (status 130 for a shell); any other
    uncaught exception prints a traceback and gives status 1. *)
Definition exit_status (o : outcome unit) : option Z :=
  match o with
  | Ret _ => None
  | Raise (SystemExit code) => Some code
  | Raise KeyboardInterrupt => Some 130
  | Raise _ => Some 1
  end.

(** The state machine's invariant: [downtime_start] is set exactly when the
    network is held to be down. *)
Definition consistent (m : machine) : Prop :=
  downtime_start m <> None <-> network_is_up m = false.

(** A tick that probed once, read the clock once and slept once, without
    calling the endpoint. *)
Definition quiet_tick (m m' : machine) : Prop :=
  made m' =
    {| runs := S (runs (made m)); clock_reads := S (clock_reads (made m));
       utc_clock_reads := utc_clock_reads (made m); posts := posts (made m);
       sleeps := S (sleeps (made m)) |}.

(** The calls of the notifier in a trace. *)
Definition is_post (e : event) : bool :=
  match e with Post _ _ _ => true | _ => false end.

Definition posts_of (t : list event) : list event := filter is_post t.

(** How many times the notifier was entered.  The first thing
    [send_discord_notification] asks of the outside is the UTC time for the
    stamp of its message, and nothing else in the script reads that clock:
    the reads count the runs of the notifier. *)
Definition notifier_entries (m : machine) : nat := utc_clock_reads (made m).

(** What the rest of the script can see of a step that leaves the state
    machine alone: same state, notifier not entered, no new request. *)
Definition undisturbed (m m' : machine) : Prop :=
  network_is_up m' = network_is_up m /\
  downtime_start m' = downtime_start m /\
  posts_of (trace m') = posts_of (trace m) /\
  notifier_entries m' = notifier_entries m.

(** The three things a tick can do to the state machine.  [E] gives the
    reply to the probe of the tick.  When the network is found back the
    notifier is entered once and makes at most one request; the state is
    reset unless the notifier was cut short by an exception. *)
Inductive transition (E : environment) (m m' : machine) : Prop :=
| unchanged :
    undisturbed m m' -> transition E m m'
| network_lost (now : datetime) :
    network_is_up m = true ->
    run_reply E (runs (made m)) <> Done 0 ->
    network_is_up m' = false ->
    downtime_start m' = Some now ->
    posts_of (trace m') = posts_of (trace m) ->
    notifier_entries m' = notifier_entries m ->
    transition E m m'
| network_restored :
    network_is_up m = false ->
    downtime_start m <> None ->
    run_reply E (runs (made m)) = Done 0 ->
    notifier_entries m' = S (notifier_entries m) ->
    (posts_of (trace m') = posts_of (trace m) \/
     exists p, posts_of (trace m') = posts_of (trace m) ++ [p]) ->
    (network_is_up m' = true /\ downtime_start m' = None \/
     network_is_up m' = false /\ downtime_start m' = downtime_start m) ->
    transition E m m'.

(** The machine on entry to the loop: the banner is printed and the two
    variables of the state machine are initialised. *)
Definition entered (E : environment) (m : machine) : machine :=
  {| network_is_up := true; downtime_start := None;
     trace := trace (snd (banner E m)); made := made (snd (banner E m)) |}.

(** [wp c m Q]: running [c] from [m] ends in an outcome and a machine that
    satisfy [Q]. *)
Definition wp {A} (c : M A) (m : machine)
    (Q : outcome A -> machine -> Prop) : Prop :=
  Q (fst (c m)) (snd (c m)).

(** ** Describing and scripting the environment *)

(** The call is cut short by an exception that is not an [Exception]: an
    interrupt, or a request to exit. *)
Definition interrupts {A} (r : reply A) : bool :=
  match r with
  | Done _ => false
  | Fails e => negb (is_Exception e)
  end.

(** The three ways a probe fails: [ping] exits with a non-zero status, the
    timeout of [subprocess.run] expires, or running the command raises
    another error. *)
Definition probe_fails (r : reply Z) : Prop :=
  match r with
  | Done returncode => returncode <> 0
  | Fails e => is_Exception e = true
  end.

(** The probe result the loop reads off a reply. *)
Definition probe_says (b : bool) (r : reply Z) : Prop :=
  if b then r = Done 0 else probe_fails r.

(** What [ping] logs for each reply to its command: a line for an error
    other than the expiry of the timeout, nothing otherwise. *)
Definition probe_log (r : reply Z) : list event :=
  match r with
  | Done _ | Fails (TimeoutExpired _) => []
  | Fails e => [Write (lit " !! Ping error: " ++ exn_str e ++ NL)]
  end.

(** The line [send_discord_notification] logs for each reply to its
    request. *)
Definition delivery_log (r : reply Z) : str :=
  match r with
  | Done status =>
      if status =? 204
      then lit " ++ Discord notification sent successfully" ++ NL
      else lit " !! Discord notification failed: " ++ str_of_int status ++ NL
  | Fails e => lit " !! Error sending Discord notification: " ++ exn_str e ++ NL
  end.

(** A calendar for examples: instants count microseconds from
    1970-01-01 00:00:00 of their time line. *)
Definition civil_of_days (z : Z) : Z * Z * Z :=
  let z := z + 719468 in
  let era := z / 146097 in
  let doe := z - era * 146097 in
  let yoe := (doe - doe / 1460 + doe / 36524 - doe / 146096) / 365 in
  let doy := doe - (365 * yoe + yoe / 4 - yoe / 100) in
  let mp := (5 * doy + 2) / 153 in
  let d := doy - (153 * mp + 2) / 5 + 1 in
  let m := if mp <? 10 then mp + 3 else mp - 9 in
  let y := yoe + era * 400 + (if m <=? 2 then 1 else 0) in
  (y, m, d).

(** [n] in decimal, padded with zeros to [width] digits. *)
Definition zero_padded (width : nat) (n : Z) : str :=
  let digits := str_of_int n in
  repeat 48%N (width - length digits) ++ digits.

Definition directive (d : datetime) (c : N) : str :=
  let seconds := d / 1000000 in
  let '(y, m, day) := civil_of_days (seconds / 86400) in
  let clock := seconds mod 86400 in
  if (c =? 89)%N then zero_padded 4 y
  else if (c =? 109)%N then zero_padded 2 m
  else if (c =? 100)%N then zero_padded 2 day
  else if (c =? 72)%N then zero_padded 2 (clock / 3600)
  else if (c =? 77)%N then zero_padded 2 ((clock mod 3600) / 60)
  else if (c =? 83)%N then zero_padded 2 (clock mod 60)
  else [37%N; c].

Fixpoint calendar_strftime (d : datetime) (fmt : str) : str :=
  match fmt with
  | [] => []
  | c :: rest =>
      if (c =? 37)%N
      then match rest with
           | [] => [c]
           | c' :: rest' => directive d c' ++ calendar_strftime d rest'
           end
      else c :: calendar_strftime d rest
  end.

Definition calendar_isoformat (d : datetime) : str :=
  calendar_strftime d (lit "%Y-%m-%dT%H:%M:%S")
  ++ (if d mod 1000000 =? 0 then []
      else lit "." ++ zero_padded 6 (d mod 1000000))
  ++ lit "+00:00".

(** An environment given by the lists of its replies.  Once a list is used
    up the probe succeeds, the clocks stand at 0, the endpoint answers 204
    and [time.sleep] returns. *)
Definition scripted (system : str) (file : reply str)
    (probes : list (reply Z)) (clock utc_clock : list (reply datetime))
    (endpoint : list (reply Z)) (naps : list (reply unit)) : environment :=
  {| platform_system := system;
     platform_release := lit "6.1.0";
     strftime := calendar_strftime;
     isoformat := calendar_isoformat;
     webhook_file := file;
     run_reply := fun k => nth k probes (Done 0);
     now_reply := fun k => nth k clock (Done 0);
     utcnow_reply := fun k => nth k utc_clock (Done 0);
     post_reply := fun k => nth k endpoint (Done 204);
     sleep_reply := fun k => nth k naps (Done tt) |}.

Definition hook : str := lit "https://example.com/hook".

(** An environment that answers every call of a primitive the same way:
    the probe always gives [probe], the endpoint [endpoint]; the clock
    advances by five seconds from one read to the next. *)
Definition steady (file : reply str) (probe endpoint : reply Z)
  : environment :=
  {| platform_system := lit "Linux";
     platform_release := lit "6.1.0";
     strftime := calendar_strftime;
     isoformat := calendar_isoformat;
     webhook_file := file;
     run_reply := fun _ => probe;
     now_reply := fun k => Done (1700000000000000 + 5000000 * Z.of_nat k);
     utcnow_reply := fun k => Done (1700000000000000 + 5000000 * Z.of_nat k);
     post_reply := fun _ => endpoint;
     sleep_reply := fun _ => Done tt |}.

(** The loop in the DOWN state since [started], nothing else done yet. *)
Definition down_since (started : datetime) : machine :=
  {| network_is_up := false; downtime_start := Some started;
     trace := []; made := made boot |}.

(** Two ticks with the network down.  In the second one the clock read
    fails; the interrupt comes during the sleep that follows. *)
Definition interrupted_after_error : environment :=
  scripted (lit "Linux") (Done hook)
           [Done 1; Done 1]
           [Done 1700000000000000; Fails (OtherError (lit "out of memory"))]
           [] [] [Done tt; Fails KeyboardInterrupt].

(** The same two ticks without the failure: the interrupt comes during the
    sleep that ends the second tick. *)
Definition interrupted_asleep : environment :=
  scripted (lit "Linux") (Done hook)
           [Done 1; Done 1]
           [Done 1700000000000000; Done 1700000005000000]
           [] [] [Done tt; Fails KeyboardInterrupt].

(** Six ticks, five seconds apart: the network is lost at the third probe
    (non-zero exit status, then a timeout, then a command that cannot be
    run) and is back at the sixth. *)
Definition one_outage : environment :=
  scripted (lit "Linux") (Done (lit " https://example.com/hook " ++ NL))
           [Done 0; Done 0; Done 1; Fails (TimeoutExpired (lit "timed out"));
            Fails (OtherError (lit "No such file or directory: 'ping'"));
            Done 0]
           [Done 1700000000000000; Done 1700000005000000;
            Done 1700000010000000; Done 1700000015000000;
            Done 1700000020000000; Done 1700000025000000]
           [Done 1700003625250000] [Done 500] [].

(** ** Vocabulary of the further properties *)

(** A step that takes the state machine from DOWN to UP has made a
    request. *)
Definition reported (m m' : machine) : Prop :=
  network_is_up m = false ->
  network_is_up m' = true ->
  exists p, posts_of (trace m') = posts_of (trace m) ++ [p].

(** The calls the loop is meant to make: the probe of [PING_TARGET] bounded
    by the probe timeout and a second, requests to the configured endpoint
    bounded by ten seconds, sleeps of [PING_INTERVAL]; it may write what it
    likes. *)
Definition allowed (E : environment) (url : str) (e : event) : Prop :=
  match e with
  | Write _ => True
  | Run command timeout =>
      command = ping_command E PING_TARGET PING_TIMEOUT /\
      timeout = PING_TIMEOUT + 1
  | Post u _ timeout => u = url /\ timeout = 10
  | Sleep seconds => seconds = PING_INTERVAL
  end.

(** A step that runs no command and makes allowed calls only. *)
Definition calm (E : environment) (url : str) (m m' : machine) : Prop :=
  runs (made m') = runs (made m) /\
  (Forall (allowed E url) (trace m) -> Forall (allowed E url) (trace m')).

(** The outages in a run of ticks.  A tick is given by the result of its
    probe and the instant it read; [since] is the start of the outage in
    progress, if there is one.  An outage starts at the first failed probe
    after a success and ends at the next success. *)
Fixpoint outages (since : option datetime) (ticks : list (bool * datetime))
  : list (datetime * datetime) :=
  match ticks with
  | [] => []
  | (true, now) :: rest =>
      match since with
      | Some started => (started, now) :: outages None rest
      | None => outages None rest
      end
  | (false, now) :: rest =>
      match since with
      | Some started => outages (Some started) rest
      | None => outages (Some now) rest
      end
  end.

(** The start of the outage still in progress after the ticks. *)
Fixpoint still_down (since : option datetime) (ticks : list (bool * datetime))
  : option datetime :=
  match ticks with
  | [] => since
  | (true, _) :: rest => still_down None rest
  | (false, now) :: rest =>
      match since with
      | Some started => still_down (Some started) rest
      | None => still_down (Some now) rest
      end
  end.

(** The requests that report a list of outages, the message of the k-th
    request of the process being stamped [stamp k]. *)
Definition reports (E : environment) (url : str) (stamp : nat -> datetime)
    (first : nat) (found : list (datetime * datetime)) : list event :=
  map (fun report : nat * (datetime * datetime) =>
         let '(k, (started, restored)) := report in
         Post url
           (notification (strftime E started (lit "%Y-%m-%d %H:%M:%S"))
                         (strftime E restored (lit "%Y-%m-%d %H:%M:%S"))
                         (format_duration (restored - started))
                         (isoformat E (stamp k)))
           10)
      (combine (seq first (length found)) found).

(** The environment plays the ticks: counted from the calls [r], [c] and
    [s] of the probe, the clock and the sleep, the i-th probe gives the
    i-th result, the i-th clock read the i-th instant, and the i-th sleep
    returns. *)
Definition plays (E : environment) (r c s : nat)
    (ticks : list (bool * datetime)) : Prop :=
  forall i b now,
    nth_error ticks i = Some (b, now) ->
    probe_says b (run_reply E (r + i)) /\
    now_reply E (c + i) = Done now /\
    sleep_reply E (s + i) = Done tt.

(** Reading a trace for the rhythm of the loop.  [Some true]: a sleep was
    asked for since the last probe (or no probe was made yet); [Some false]:
    a probe was made and no sleep asked for since; [None]: two probes were
    made without a sleep in between. *)
Definition beat (rhythm : option bool) (e : event) : option bool :=
  match rhythm, e with
  | None, _ => None
  | Some rested, Run _ _ => if rested then Some false else None
  | Some _, Sleep _ => Some true
  | Some rested, _ => Some rested
  end.

Definition pace (t : list event) : option bool := fold_left beat t (Some true).

Arguments pace : simpl never.

(** A step that neither probes nor sleeps. *)
Definition in_step (m m' : machine) : Prop := pace (trace m') = pace (trace m).

(** * Properties *)

(** C4: the duration formatter renders 0 s as "0 seconds", 61 s as
    "1 minute, 1 second", 3661 s as "1 hour, 1 minute, 1 second", 3600 s as
    "1 hour" and 2 s as "2 seconds". *)
Theorem format_duration_examples :
  format_duration (timedelta_seconds 0) = lit "0 seconds" /\
  format_duration (timedelta_seconds 61) = lit "1 minute, 1 second" /\
  format_duration (timedelta_seconds 3661) = lit "1 hour, 1 minute, 1 second" /\
  format_duration (timedelta_seconds 3600) = lit "1 hour" /\
  format_duration (timedelta_seconds 2) = lit "2 seconds".
Proof. repeat split; vm_compute; reflexivity. Qed.

(** X1: whatever the span, negative spans included, the output is never
    empty: the seconds are printed when no other unit is. *)
Lemma format_duration_never_empty (d : timedelta) : format_duration d <> [].
Proof.
  unfold format_duration.
  set (h := int_total_seconds d / 3600).
  set (mi := (int_total_seconds d mod 3600) / 60).
  set (s := int_total_seconds d mod 60).
  assert (Hpart : forall n unit_name,
            unit_name <> [] -> str_of_int n ++ unit_name ++ plural n <> []).
  { intros n u Hu H. apply app_eq_nil in H. destruct H as [_ H].
    apply app_eq_nil in H. destruct H as [H _]. contradiction. }
  assert (Hjoin : forall p ps, p <> [] -> join (lit ", ") (p :: ps) <> []).
  { intros p ps Hp. destruct ps; cbn [join]; [exact Hp |].
    intros H. apply app_eq_nil in H. destruct H as [H _]. contradiction. }
  destruct (0 <? h), (0 <? mi), (0 <? s); cbn [app orb];
    apply Hjoin, Hpart; discriminate.
Qed.

(** ** Helper facts *)

Arguments lit : simpl never.
Arguments str_of_int : simpl never.
Arguments str_repeat : simpl never.
Arguments format_duration : simpl never.
Arguments notification : simpl never.
Arguments ping_command : simpl never.
Arguments exn_str : simpl never.

Lemma interrupts_false_Exception {A} (e : exn) :
  interrupts (@Fails A e) = false -> is_Exception e = true.
Proof.
  unfold interrupts. destruct (is_Exception e); [reflexivity | discriminate].
Qed.

Ltac run_script :=
  unfold tick, tick_body, tick_handler, send_discord_notification, ping,
    load_webhook_url, subprocess_run, datetime_now, datetime_now_utc, requests_post,
    time_sleep, read_file, datetime_sub, the_datetime, sys_exit,
    print, print_end, get_network_is_up, get_downtime_start,
    set_network_is_up, set_downtime_start, calls_made, count, emit,
    try_except, bind, answer, ret, raise;
  cbn [fst snd network_is_up downtime_start trace made runs clock_reads
       utc_clock_reads posts sleeps].

(** ** The prober *)

(** C5: whatever the host and the timeout, when running the command ends in
    one of the probe's outcomes (an exit status, the expiry of the timeout,
    or any other error) [ping] returns to its caller without raising; it
    returns [True] exactly when the command exits with status 0, hence
    [False] on each of the three failure modes.  The command is run once,
    with a timeout one second above the probe's; an error other than the
    expiry of the timeout is logged. *)
Theorem ping_collapses_failures (E : environment) (host : str) (timeout : Z)
    (m : machine) :
  interrupts (run_reply E (runs (made m))) = false ->
  exists (b : bool) (m' : machine),
    ping E host timeout m = (Ret b, m') /\
    (b = true <-> run_reply E (runs (made m)) = Done 0) /\
    (probe_fails (run_reply E (runs (made m))) -> b = false) /\
    trace m' =
      trace m ++
      Run (ping_command E host timeout) (timeout + 1)
      :: probe_log (run_reply E (runs (made m))).
Proof.
  intros Hr. run_script.
  destruct (run_reply E (runs (made m))) as [returncode | e].
  - eexists _, _. split; [reflexivity |]. split; [| split].
    + rewrite Z.eqb_eq. split; [intros -> | intros [= ->]]; reflexivity.
    + cbn. intros Hne. apply Z.eqb_neq, Hne.
    + reflexivity.
  - apply interrupts_false_Exception in Hr.
    destruct e; try discriminate Hr; cbn;
      (eexists _, _; split; [reflexivity |]; split; [| split];
       [split; discriminate | reflexivity |]);
      cbn [trace probe_log]; rewrite <- ?app_assoc; reflexivity.
Qed.

(** ** The notifier *)

(** C6: called with the start of an outage, and the stamp of its message
    read off the clock, [send_discord_notification] makes one request and
    returns [True] exactly when the POST answers with status 204.  With any
    other status, and with any error raised by the request (a timeout
    included), it writes one line to the log and returns [False] without
    raising. *)
Theorem notifier_succeeds_iff_204 (E : environment) (url : str)
    (started restored : datetime) (duration : timedelta) (generated : datetime)
    (m : machine) :
  utcnow_reply E (utc_clock_reads (made m)) = Done generated ->
  interrupts (post_reply E (posts (made m))) = false ->
  exists (b : bool) (m' : machine),
    send_discord_notification E url (Some started) restored duration m
      = (Ret b, m') /\
    (b = true <-> post_reply E (posts (made m)) = Done 204) /\
    trace m' =
      trace m ++
      [Post url
         (notification (strftime E started (lit "%Y-%m-%d %H:%M:%S"))
                       (strftime E restored (lit "%Y-%m-%d %H:%M:%S"))
                       (format_duration duration) (isoformat E generated))
         10;
       Write (delivery_log (post_reply E (posts (made m))))].
Proof.
  intros Hclock Hr. run_script. rewrite Hclock.
  cbn [fst snd network_is_up downtime_start trace made posts].
  destruct (post_reply E (posts (made m))) as [status | e].
  - destruct (status =? 204) eqn:Hs.
    + eexists _, _. split; [reflexivity |]. split.
      * apply Z.eqb_eq in Hs. subst status. split; reflexivity.
      * cbn [trace delivery_log]. rewrite Hs, <- !app_assoc. reflexivity.
    + eexists _, _. split; [reflexivity |]. split.
      * apply Z.eqb_neq in Hs. split; [discriminate |].
        intros [= ->]. contradiction Hs. reflexivity.
      * cbn [trace delivery_log]. rewrite Hs, <- !app_assoc. reflexivity.
  - apply interrupts_false_Exception in Hr. rewrite Hr.
    eexists _, _. split; [reflexivity |]. split.
    + split; discriminate.
    + cbn [trace delivery_log]. rewrite <- !app_assoc. reflexivity.
Qed.

(** ** The credential file *)

Lemma str_eqb_nil (s : str) : str_eqb s [] = true <-> s = [].
Proof.
  unfold str_eqb. destruct (list_eq_dec N.eq_dec s []); split;
    congruence.
Qed.

Lemma lstrip_prefix (s : str) :
  exists pre, s = pre ++ lstrip s /\ forallb isspace pre = true.
Proof.
  induction s as [| c s IH]; cbn [lstrip].
  - exists []. split; reflexivity.
  - destruct (isspace c) eqn:Hc.
    + destruct IH as (pre & Hs & Hpre). exists (c :: pre). split.
      * cbn. rewrite <- Hs. reflexivity.
      * cbn. rewrite Hc, Hpre. reflexivity.
    + exists []. split; reflexivity.
Qed.

Lemma lstrip_first (s : str) (c : N) (rest : str) :
  lstrip s = c :: rest -> isspace c = false.
Proof.
  induction s as [| a s IH]; cbn [lstrip]; [discriminate |].
  destruct (isspace a) eqn:Ha; [exact IH |].
  intros [= <- _]. exact Ha.
Qed.

Lemma rstrip_suffix (s : str) :
  exists post, s = rstrip s ++ post /\ forallb isspace post = true.
Proof.
  unfold rstrip. destruct (lstrip_prefix (rev s)) as (pre & Hs & Hpre).
  exists (rev pre). split.
  - rewrite <- rev_app_distr, <- Hs, rev_involutive. reflexivity.
  - rewrite forallb_forall in *. intros x Hx. apply Hpre, in_rev, Hx.
Qed.

Lemma rstrip_last (s : str) (c : N) (init : str) :
  rstrip s = init ++ [c] -> isspace c = false.
Proof.
  unfold rstrip. intros H.
  apply (f_equal (@rev N)) in H.
  rewrite rev_involutive, rev_app_distr in H. cbn in H.
  exact (lstrip_first _ _ _ H).
Qed.

Lemma rstrip_first (s : str) (c : N) (rest : str) :
  (forall a s', s = a :: s' -> isspace a = false) ->
  rstrip s = c :: rest -> isspace c = false.
Proof.
  intros Hhead Hr.
  destruct (rstrip_suffix s) as (post & Hs & _).
  rewrite Hr in Hs. cbn in Hs. exact (Hhead _ _ Hs).
Qed.

(** [strip] removes a run of whitespace at each end and nothing else; what
    is left neither starts nor ends with whitespace. *)
Lemma strip_spec (s : str) :
  (exists pre post,
     s = pre ++ strip s ++ post /\
     forallb isspace pre = true /\ forallb isspace post = true) /\
  (forall c rest, strip s = c :: rest -> isspace c = false) /\
  (forall c init, strip s = init ++ [c] -> isspace c = false).
Proof.
  unfold strip. split; [| split].
  - destruct (lstrip_prefix s) as (pre & Hs & Hpre).
    destruct (rstrip_suffix (lstrip s)) as (post & Hl & Hpost).
    exists pre, post. split; [| split]; try assumption.
    rewrite <- Hl. exact Hs.
  - intros c rest. apply rstrip_first. intros a s'. apply lstrip_first.
  - intros c init. apply rstrip_last.
Qed.

(** C7: at startup, a missing credential file makes the process print an
    error and exit with status 1 before the loop is entered (no probe, no
    sleep, whatever the number of ticks allowed); a content that is not
    empty after reading and does not start with "http" does the same; an
    empty content is returned as the (empty) endpoint, unchecked. *)
Theorem credential_file_at_startup (E : environment) (m : machine) :
  (forall msg ticks,
     webhook_file E = Fails (FileNotFoundError msg) ->
     exists m',
       monitor_network E ticks m = (Raise (SystemExit 1), m') /\
       exit_status (fst (monitor_network E ticks m)) = Some 1 /\
       trace m' =
         trace m ++ [Write (lit "Error: webhook-secret not found" ++ NL)]) /\
  (forall content ticks,
     webhook_file E = Done content ->
     strip content <> [] ->
     startswith (strip content) (lit "http") = false ->
     exists m',
       monitor_network E ticks m = (Raise (SystemExit 1), m') /\
       exit_status (fst (monitor_network E ticks m)) = Some 1 /\
       trace m' =
         trace m ++
         [Write (lit "Error: Invalid webhook URL in webhook-secret" ++ NL)]) /\
  (forall content,
     webhook_file E = Done content ->
     strip content = [] ->
     load_webhook_url E m = (Ret [], m)).
Proof.
  split; [| split].
  - intros msg ticks Hfile. unfold monitor_network. run_script.
    rewrite Hfile. eexists. repeat split.
  - intros content ticks Hfile Hne Hprefix. unfold monitor_network.
    run_script. rewrite Hfile, Hprefix.
    destruct (str_eqb (strip content) []) eqn:Hempty.
    + apply str_eqb_nil in Hempty. contradiction.
    + eexists. repeat split.
  - intros content Hfile Hempty. run_script. rewrite Hfile, Hempty.
    reflexivity.
Qed.

(** C10: the check of the credential is a prefix test on the stripped
    content.  The content is stripped of the whitespace at its two ends, and
    a stripped content that is not empty and starts with the four
    characters "http" is returned as the endpoint, with no other check;
    "httpgarbage" is accepted. *)
Theorem credential_check_is_prefix_test (E : environment) (m : machine) :
  (forall content,
     webhook_file E = Done content ->
     strip content <> [] ->
     startswith (strip content) (lit "http") = true ->
     load_webhook_url E m = (Ret (strip content), m) /\
     (exists pre post,
        content = pre ++ strip content ++ post /\
        forallb isspace pre = true /\ forallb isspace post = true) /\
     (forall c rest, strip content = c :: rest -> isspace c = false) /\
     (forall c init, strip content = init ++ [c] -> isspace c = false)) /\
  (webhook_file E = Done (lit "httpgarbage") ->
   load_webhook_url E m = (Ret (lit "httpgarbage"), m)).
Proof.
  split.
  - intros content Hfile Hne Hprefix. split; [| apply strip_spec].
    run_script. rewrite Hfile, Hprefix.
    rewrite andb_false_r. reflexivity.
  - intros Hfile. run_script. rewrite Hfile. reflexivity.
Qed.

(** ** The monitor loop *)

Lemma posts_of_app (t1 t2 : list event) :
  posts_of (t1 ++ t2) = posts_of t1 ++ posts_of t2.
Proof. apply filter_app. Qed.

Lemma posts_of_post (t : list event) (url : str) (body : json) (timeout : Z) :
  posts_of (t ++ [Post url body timeout]) =
  posts_of t ++ [Post url body timeout].
Proof. apply posts_of_app. Qed.

Lemma posts_of_write (t : list event) (text : str) :
  posts_of (t ++ [Write text]) = posts_of t.
Proof. rewrite posts_of_app. apply app_nil_r. Qed.

Lemma posts_of_run (t : list event) (command : list str) (timeout : Z) :
  posts_of (t ++ [Run command timeout]) = posts_of t.
Proof. rewrite posts_of_app. apply app_nil_r. Qed.

Lemma posts_of_sleep (t : list event) (seconds : Z) :
  posts_of (t ++ [Sleep seconds]) = posts_of t.
Proof. rewrite posts_of_app. apply app_nil_r. Qed.

Ltac count_posts :=
  cbn [trace];
  repeat (rewrite posts_of_write || rewrite posts_of_run ||
          rewrite posts_of_sleep || rewrite posts_of_post).

(** *** A calculus for the monad *)

Lemma wp_bind {A B} (c : M A) (k : A -> M B) (m : machine)
    (Q : outcome B -> machine -> Prop) :
  wp c m (fun o m1 =>
            match o with
            | Ret a => wp (k a) m1 Q
            | Raise e => Q (Raise e) m1
            end) ->
  wp (bind c k) m Q.
Proof. unfold wp, bind. destruct (c m) as [[a | e] m1]; cbn; auto. Qed.

Lemma wp_try {A} (body : M A) (handler : exn -> option (M A)) (m : machine)
    (Q : outcome A -> machine -> Prop) :
  wp body m (fun o m1 =>
               match o with
               | Ret a => Q (Ret a) m1
               | Raise e =>
                   match handler e with
                   | Some h => wp h m1 Q
                   | None => Q (Raise e) m1
                   end
               end) ->
  wp (try_except body handler) m Q.
Proof.
  unfold wp, try_except. destruct (body m) as [[a | e] m1]; cbn; auto.
  destruct (handler e); auto.
Qed.

Lemma wp_weaken {A} (c : M A) (m : machine)
    (Q Q' : outcome A -> machine -> Prop) :
  wp c m Q -> (forall o m1, Q o m1 -> Q' o m1) -> wp c m Q'.
Proof. unfold wp. auto. Qed.

Lemma undisturbed_refl (m : machine) : undisturbed m m.
Proof. repeat split. Qed.

Lemma undisturbed_trans (m1 m2 m3 : machine) :
  undisturbed m1 m2 -> undisturbed m2 m3 -> undisturbed m1 m3.
Proof. unfold undisturbed. intuition congruence. Qed.

Ltac undisturbed_now :=
  unfold wp; run_script;
  repeat match goal with
  | |- context [match ?r with Done _ => _ | Fails _ => _ end] =>
      destruct r as [? | []]; cbn
  | |- context [if ?b then _ else _] => destruct b; cbn
  end;
  repeat split; count_posts; reflexivity.

Lemma datetime_now_undisturbed (E : environment) (m : machine) :
  wp (datetime_now E) m (fun _ m1 => undisturbed m m1).
Proof. undisturbed_now. Qed.

Lemma time_sleep_undisturbed (E : environment) (s : Z) (m : machine) :
  wp (time_sleep E s) m (fun _ m1 => undisturbed m m1).
Proof. undisturbed_now. Qed.

Lemma print_undisturbed (s : str) (m : machine) :
  wp (print s) m (fun o m1 => o = Ret tt /\ undisturbed m m1).
Proof. unfold wp. cbn. repeat split. count_posts. reflexivity. Qed.

Lemma print_end_undisturbed (s e : str) (m : machine) :
  wp (print_end s e) m (fun o m1 => o = Ret tt /\ undisturbed m m1).
Proof. unfold wp. cbn. repeat split. count_posts. reflexivity. Qed.

Lemma ping_spec (E : environment) (host : str) (timeout : Z) (m : machine) :
  wp (ping E host timeout) m
     (fun o m1 =>
        undisturbed m m1 /\
        (o = Ret true <-> run_reply E (runs (made m)) = Done 0)).
Proof.
  unfold wp. run_script.
  destruct (run_reply E (runs (made m))) as [returncode | []]; cbn.
  2-7: split; [repeat split; count_posts; reflexivity | split; discriminate].
  split; [repeat split; count_posts; reflexivity |].
  destruct (returncode =? 0) eqn:Hc.
  - apply Z.eqb_eq in Hc. subst. split; reflexivity.
  - apply Z.eqb_neq in Hc. split; [discriminate | congruence].
Qed.

Lemma notifier_spec (E : environment) (url : str)
    (started restored : datetime) (duration : timedelta) (m : machine) :
  wp (send_discord_notification E url (Some started) restored duration) m
     (fun o m1 =>
        network_is_up m1 = network_is_up m /\
        downtime_start m1 = downtime_start m /\
        notifier_entries m1 = S (notifier_entries m) /\
        match o with
        | Ret _ => exists p, posts_of (trace m1) = posts_of (trace m) ++ [p]
        | Raise _ =>
            posts_of (trace m1) = posts_of (trace m) \/
            exists p, posts_of (trace m1) = posts_of (trace m) ++ [p]
        end).
Proof.
  unfold wp. run_script.
  destruct (utcnow_reply E (utc_clock_reads (made m))) as [u | e]; cbn.
  2: { repeat split. left. reflexivity. }
  destruct (post_reply E (posts (made m))) as [status | []]; cbn.
  1: destruct (status =? 204); cbn.
  all: repeat split; try right; eexists; count_posts; reflexivity.
Qed.

Lemma tick_handler_undisturbed (E : environment) (e : exn) (h : M unit)
    (m : machine) :
  tick_handler E e = Some h -> wp h m (fun _ m1 => undisturbed m m1).
Proof.
  destruct e; cbn; intros [= <-]; undisturbed_now.
Qed.

Lemma transition_undisturbed (E : environment) (m0 m1 m2 : machine) :
  transition E m0 m1 -> undisturbed m1 m2 -> transition E m0 m2.
Proof.
  intros T U2. pose proof U2 as (Hup & Hstart & Hposts & Hentries).
  destruct T as [U | now ? ? ? ? ? ? | ? ? ? ? ? ?].
  - apply unchanged. eapply undisturbed_trans; eassumption.
  - apply (network_lost E m0 m2 now); congruence.
  - apply (network_restored E m0 m2); try congruence.
    rewrite Hposts. assumption.
Qed.

Ltac run_locals :=
  unfold datetime_sub, the_datetime, sys_exit, print, print_end,
    get_network_is_up, get_downtime_start, set_network_is_up,
    set_downtime_start, emit, bind, ret, raise;
  cbn [fst snd network_is_up downtime_start trace made].

Ltac same_view :=
  repeat split; unfold notifier_entries in *;
  cbn [fst snd network_is_up downtime_start trace made utc_clock_reads];
  count_posts; congruence.

Lemma tick_body_transition (E : environment) (url : str) (m : machine) :
  wp (tick_body E url) m (fun _ m1 => transition E m m1).
Proof.
  unfold tick_body.
  apply wp_bind. eapply wp_weaken; [apply ping_spec |].
  intros [is_reachable | e] m1 [U1 Hping]; [| apply unchanged, U1].
  apply wp_bind. eapply wp_weaken; [apply datetime_now_undisturbed |].
  intros [current_time | e] m2 U2;
    [| apply unchanged; eapply undisturbed_trans; eassumption].
  assert (U : undisturbed m m2) by (eapply undisturbed_trans; eassumption).
  clear U1 U2. destruct U as (Hup & Hstart & Hposts & Hentries).
  apply wp_bind.
  apply wp_weaken with (Q := fun _ m3 => transition E m m3).
  2: { intros [[] | e] m3 T; [| exact T].
       eapply wp_weaken; [apply time_sleep_undisturbed |].
       intros o4 m4 U4. eapply transition_undisturbed; eassumption. }
  destruct is_reachable.
  - assert (Hrun : run_reply E (runs (made m)) = Done 0)
      by (apply Hping; reflexivity).
    unfold wp. run_locals.
    destruct (network_is_up m2) eqn:Hm; cbn [negb fst snd].
    + apply unchanged. same_view.
    + destruct (downtime_start m2) as [started |] eqn:Hs; cbn [fst snd].
      2: { apply unchanged. same_view. }
      match goal with
      | |- context [send_discord_notification E url (Some ?a) ?b ?c ?m'] =>
          pose proof (notifier_spec E url a b c m') as N; unfold wp in N;
          destruct (send_discord_notification E url (Some a) b c m')
            as [[sent | e] m3]
      end; cbn [fst snd] in N;
        destruct N as (Hup3 & Hstart3 & Hentries3 & Hposts3);
        unfold notifier_entries in *;
        cbn [network_is_up downtime_start trace made utc_clock_reads] in *;
        repeat rewrite posts_of_write in Hposts3.
      * destruct Hposts3 as (p & Hp).
        apply (network_restored E m); try same_view.
        -- right. exists p. same_view.
        -- left. same_view.
      * apply (network_restored E m); try same_view.
        -- destruct Hposts3 as [Hp | (p & Hp)];
             [left | right; exists p]; same_view.
        -- right. same_view.
  - assert (Hrun : run_reply E (runs (made m)) <> Done 0)
      by (intros H; apply Hping in H; discriminate H).
    unfold wp. run_locals.
    destruct (network_is_up m2) eqn:Hm; cbn [fst snd].
    + apply (network_lost E m _ current_time); same_view.
    + destruct (downtime_start m2) as [started |] eqn:Hs; cbn;
        apply unchanged; same_view.
Qed.

Lemma tick_transition (E : environment) (url : str) (m : machine) :
  transition E m (snd (tick E url m)).
Proof.
  change (wp (tick E url) m (fun _ m1 => transition E m m1)).
  unfold tick. apply wp_try.
  eapply wp_weaken; [apply tick_body_transition |].
  intros [[] | e] m1 T; [exact T |].
  destruct (tick_handler E e) as [h |] eqn:Hh; [| exact T].
  eapply wp_weaken; [eapply tick_handler_undisturbed, Hh |].
  intros o2 m2 U. eapply transition_undisturbed; eassumption.
Qed.

(** *** One tick, the replies being known *)

Lemma probe_fails_cases (r : reply Z) :
  probe_fails r ->
  (exists returncode, r = Done returncode /\ (returncode =? 0) = false) \/
  (exists e, r = Fails e /\ is_Exception e = true).
Proof.
  destruct r as [returncode | e]; cbn; intros H.
  - left. exists returncode. split; [reflexivity | apply Z.eqb_neq, H].
  - right. exists e. split; [reflexivity | exact H].
Qed.

Ltac failed_probe H :=
  apply probe_fails_cases in H;
  destruct H as [(returncode & -> & Hcode) | (e & -> & He)];
  [cbn; rewrite Hcode | destruct e; try discriminate He]; cbn.

Lemma tick_network_ok (E : environment) (url : str) (m : machine)
    (now : datetime) :
  network_is_up m = true ->
  run_reply E (runs (made m)) = Done 0 ->
  now_reply E (clock_reads (made m)) = Done now ->
  sleep_reply E (sleeps (made m)) = Done tt ->
  exists m',
    tick E url m = (Ret tt, m') /\ quiet_tick m m' /\
    network_is_up m' = true /\ downtime_start m' = downtime_start m /\
    posts_of (trace m') = posts_of (trace m).
Proof.
  intros Hup Hrun Hnow Hsleep. run_script.
  rewrite Hrun. cbn. rewrite Hnow. cbn. rewrite Hup. cbn. rewrite Hsleep.
  eexists. split; [reflexivity |]. repeat split. count_posts. reflexivity.
Qed.

Lemma tick_network_lost (E : environment) (url : str) (m : machine)
    (now : datetime) :
  network_is_up m = true ->
  probe_fails (run_reply E (runs (made m))) ->
  now_reply E (clock_reads (made m)) = Done now ->
  sleep_reply E (sleeps (made m)) = Done tt ->
  exists m',
    tick E url m = (Ret tt, m') /\ quiet_tick m m' /\
    network_is_up m' = false /\ downtime_start m' = Some now /\
    posts_of (trace m') = posts_of (trace m).
Proof.
  intros Hup Hrun Hnow Hsleep. run_script.
  failed_probe Hrun; rewrite Hnow; cbn; rewrite Hup; cbn; rewrite Hsleep;
    (eexists; split; [reflexivity |]; repeat split; count_posts; reflexivity).
Qed.

Lemma tick_network_still_down (E : environment) (url : str) (m : machine)
    (started now : datetime) :
  network_is_up m = false ->
  downtime_start m = Some started ->
  probe_fails (run_reply E (runs (made m))) ->
  now_reply E (clock_reads (made m)) = Done now ->
  sleep_reply E (sleeps (made m)) = Done tt ->
  exists m',
    tick E url m = (Ret tt, m') /\ quiet_tick m m' /\
    network_is_up m' = false /\ downtime_start m' = Some started /\
    posts_of (trace m') = posts_of (trace m).
Proof.
  intros Hup Hstart Hrun Hnow Hsleep. run_script.
  failed_probe Hrun; rewrite Hnow; cbn; rewrite Hup, Hstart; cbn;
    rewrite Hsleep;
    (eexists; split; [reflexivity |]; repeat split; count_posts; reflexivity).
Qed.

Lemma tick_network_restored (E : environment) (url : str) (m : machine)
    (started now generated : datetime) :
  network_is_up m = false ->
  downtime_start m = Some started ->
  run_reply E (runs (made m)) = Done 0 ->
  now_reply E (clock_reads (made m)) = Done now ->
  utcnow_reply E (utc_clock_reads (made m)) = Done generated ->
  posts_of (trace (snd (tick E url m))) =
    posts_of (trace m) ++
    [Post url
       (notification (strftime E started (lit "%Y-%m-%d %H:%M:%S"))
                     (strftime E now (lit "%Y-%m-%d %H:%M:%S"))
                     (format_duration (now - started)) (isoformat E generated))
       10] /\
  notifier_entries (snd (tick E url m)) = S (notifier_entries m) /\
  (interrupts (post_reply E (posts (made m))) = false ->
   network_is_up (snd (tick E url m)) = true /\
   downtime_start (snd (tick E url m)) = None /\
   (sleep_reply E (sleeps (made m)) = Done tt ->
    fst (tick E url m) = Ret tt)).
Proof.
  intros Hup Hstart Hrun Hnow Hutc. unfold notifier_entries. run_script.
  rewrite Hrun. cbn. rewrite Hnow. cbn. rewrite Hup, Hstart. cbn.
  rewrite Hutc. cbn.
  destruct (post_reply E (posts (made m))) as [status | e]; cbn.
  - destruct (status =? 204); cbn;
      (destruct (sleep_reply E (sleeps (made m))) as [[] | []]; cbn;
       (split; [count_posts; reflexivity |]; split; [reflexivity |];
        intros _; repeat split; discriminate)).
  - destruct e; cbn;
      try (split; [count_posts; reflexivity |]; split;
           [reflexivity | discriminate]);
      (destruct (sleep_reply E (sleeps (made m))) as [[] | []]; cbn;
       (split; [count_posts; reflexivity |]; split; [reflexivity |];
        intros _; repeat split; discriminate)).
Qed.

(** *** The loop *)

Lemma while_true_step (body : M unit) (ticks : nat) (m m1 : machine) :
  body m = (Ret tt, m1) ->
  while_true (S ticks) body m = while_true ticks body m1.
Proof. intros H. cbn [while_true]. unfold bind. rewrite H. reflexivity. Qed.

(** A property of the machine that every tick keeps holds when the loop is
    left or cut. *)
Lemma while_true_keeps (I : machine -> Prop) (body : M unit) :
  (forall m, I m -> I (snd (body m))) ->
  forall ticks m, I m -> I (snd (while_true ticks body m)).
Proof.
  intros Hbody. induction ticks as [| ticks IH]; intros m Hm; [exact Hm |].
  cbn [while_true]. unfold bind.
  specialize (Hbody m Hm). destruct (body m) as [[[] | e] m1]; cbn in *.
  - apply IH, Hbody.
  - exact Hbody.
Qed.

Lemma transition_keeps_consistent (E : environment) (m m' : machine) :
  transition E m m' -> consistent m -> consistent m'.
Proof.
  unfold consistent.
  intros [(Hup & Hstart & _) | now _ _ Hup Hstart _ _ | _ Hset _ _ _ Hstate] H.
  - rewrite Hup, Hstart. exact H.
  - rewrite Hup, Hstart. split; [reflexivity | intros _; discriminate].
  - destruct Hstate as [(-> & ->) | (Hup & Hstart)].
    + split; [intros F; exfalso; apply F; reflexivity | discriminate].
    + rewrite Hup, Hstart. split; [reflexivity | intros _; exact Hset].
Qed.

Lemma initially_consistent (m : machine) :
  network_is_up m = true -> downtime_start m = None -> consistent m.
Proof.
  unfold consistent. intros -> ->.
  split; [intros F; exfalso; apply F; reflexivity | discriminate].
Qed.

Lemma print_returns (s : str) (m : machine) :
  wp (print s) m
     (fun o m1 => o = Ret tt /\ undisturbed m m1 /\ made m1 = made m).
Proof. unfold wp. cbn. repeat split. count_posts. reflexivity. Qed.

Lemma banner_returns (E : environment) (m : machine) :
  wp (banner E) m
     (fun o m1 => o = Ret tt /\ undisturbed m m1 /\ made m1 = made m).
Proof.
  unfold banner.
  repeat (apply wp_bind; eapply wp_weaken; [apply print_returns |];
          intros ? ? (-> & ? & ?)).
  eapply wp_weaken; [apply print_returns |].
  intros ? ? (-> & ? & ?). split; [reflexivity |].
  split; [| congruence].
  repeat match goal with
  | U : undisturbed _ _ |- _ => destruct U as (? & ? & ? & ?)
  end.
  repeat split; congruence.
Qed.

Lemma load_webhook_url_undisturbed (E : environment) (m : machine) :
  wp (load_webhook_url E) m
     (fun _ m1 => undisturbed m m1 /\ made m1 = made m).
Proof.
  unfold wp. run_script. destruct (webhook_file E) as [content | []]; cbn;
    try (destruct (negb (str_eqb (strip content) []) &&
                   negb (startswith (strip content) (lit "http"))); cbn);
    repeat split; count_posts; reflexivity.
Qed.

Lemma monitor_network_enters (E : environment) (ticks : nat)
    (m m1 : machine) (url : str) :
  load_webhook_url E m = (Ret url, m1) ->
  monitor_network E ticks m = while_true ticks (tick E url) (entered E m1).
Proof.
  intros Hload. unfold monitor_network, entered.
  unfold bind at 1. rewrite Hload.
  unfold bind at 1.
  pose proof (banner_returns E m1) as Hb. unfold wp in Hb.
  destruct (banner E m1) as [o mb]. cbn [fst snd] in *.
  destruct Hb as (-> & _). reflexivity.
Qed.

Lemma monitor_network_refused (E : environment) (ticks : nat)
    (m m1 : machine) (e : exn) :
  load_webhook_url E m = (Raise e, m1) ->
  monitor_network E ticks m = (Raise e, m1).
Proof.
  intros Hload. unfold monitor_network, bind at 1. rewrite Hload.
  reflexivity.
Qed.

Lemma entered_view (E : environment) (m : machine) :
  network_is_up (entered E m) = true /\
  downtime_start (entered E m) = None /\
  posts_of (trace (entered E m)) = posts_of (trace m) /\
  made (entered E m) = made m.
Proof.
  pose proof (banner_returns E m) as Hb. unfold wp in Hb.
  destruct Hb as (_ & (_ & _ & Hposts & _) & Hmade).
  unfold entered. cbn. repeat split; assumption.
Qed.

(** ** The state machine *)

(** C2: [downtime_start] is set exactly when the network is held to be
    down.  Every tick keeps this, whatever the environment does, so it holds
    at every tick boundary of the loop started in the initial state (UP,
    [downtime_start] unset), and of the whole process. *)
Theorem downtime_start_set_iff_down (E : environment) (url : str) :
  (forall m, consistent m -> consistent (snd (tick E url m))) /\
  (forall ticks m0,
     network_is_up m0 = true ->
     downtime_start m0 = None ->
     consistent (snd (while_true ticks (tick E url) m0))) /\
  (forall ticks, consistent (snd (monitor_network E ticks boot))).
Proof.
  assert (Htick : forall u m, consistent m -> consistent (snd (tick E u m))).
  { intros u m Hm. eapply transition_keeps_consistent; [| exact Hm].
    apply tick_transition. }
  split; [apply Htick |]. split.
  - intros ticks m0 Hup Hstart.
    apply while_true_keeps; [apply Htick |].
    apply initially_consistent; assumption.
  - intros ticks.
    pose proof (load_webhook_url_undisturbed E boot) as Hload.
    unfold wp in Hload.
    destruct (load_webhook_url E boot) as [[webhook_url | e] m1] eqn:Hm1;
      cbn in Hload; destruct Hload as ((Hup & Hstart & _) & _).
    + rewrite (monitor_network_enters E ticks boot m1 webhook_url Hm1).
      apply while_true_keeps; [apply Htick |].
      apply initially_consistent; apply entered_view.
    + rewrite (monitor_network_refused E ticks boot m1 e Hm1). cbn.
      apply initially_consistent; assumption.
Qed.

Lemma loop_all_reachable (E : environment) (url : str) (ticks : nat)
    (m0 : machine) :
  network_is_up m0 = true ->
  (forall k, run_reply E k = Done 0) ->
  network_is_up (snd (while_true ticks (tick E url) m0)) = true /\
  posts_of (trace (snd (while_true ticks (tick E url) m0))) =
    posts_of (trace m0) /\
  notifier_entries (snd (while_true ticks (tick E url) m0)) =
    notifier_entries m0.
Proof.
  intros Hup Hrun.
  apply (while_true_keeps
           (fun m => network_is_up m = true /\
                     posts_of (trace m) = posts_of (trace m0) /\
                     notifier_entries m = notifier_entries m0));
    [| repeat split; assumption].
  intros m (Hm & Hposts & Hentries).
  destruct (tick_transition E url m)
    as [(Hup' & _ & Hposts' & Hentries') | now _ Hfail _ _ _ _
       | Hdown _ _ _ _ _].
  - repeat split; congruence.
  - contradiction Hfail. apply Hrun.
  - congruence.
Qed.

Lemma loop_all_unreachable (E : environment) (url : str) (ticks : nat)
    (m0 : machine) :
  (forall k, probe_fails (run_reply E k)) ->
  posts_of (trace (snd (while_true ticks (tick E url) m0))) =
    posts_of (trace m0) /\
  notifier_entries (snd (while_true ticks (tick E url) m0)) =
    notifier_entries m0.
Proof.
  intros Hrun.
  apply (while_true_keeps
           (fun m => posts_of (trace m) = posts_of (trace m0) /\
                     notifier_entries m = notifier_entries m0));
    [| split; reflexivity].
  intros m (Hposts & Hentries).
  destruct (tick_transition E url m)
    as [(_ & _ & Hposts' & Hentries') | now _ _ _ _ Hposts' Hentries'
       | _ _ Hok _ _ _].
  - split; congruence.
  - split; congruence.
  - specialize (Hrun (runs (made m))). rewrite Hok in Hrun.
    contradiction Hrun. reflexivity.
Qed.

Lemma loop_keeps_running (E : environment) (url : str) (ticks : nat) :
  (forall k, probe_fails (run_reply E k)) ->
  (forall k, exists now, now_reply E k = Done now) ->
  (forall k, sleep_reply E k = Done tt) ->
  forall m,
    consistent m ->
    exists m',
      while_true ticks (tick E url) m = (Ret tt, m') /\
      runs (made m') = (runs (made m) + ticks)%nat.
Proof.
  intros Hrun Hnow Hsleep.
  induction ticks as [| ticks IH]; intros m Hm.
  - exists m. split; [reflexivity | apply plus_n_O].
  - destruct (Hnow (clock_reads (made m))) as (now & Hclock).
    assert (Hstep : exists m1,
               tick E url m = (Ret tt, m1) /\ quiet_tick m m1).
    { destruct (network_is_up m) eqn:Hup.
      - destruct (tick_network_lost E url m now Hup (Hrun _) Hclock
                    (Hsleep _)) as (m1 & H1 & Hq & _).
        exists m1. split; assumption.
      - destruct (downtime_start m) as [started |] eqn:Hstart.
        + destruct (tick_network_still_down E url m started now Hup Hstart
                      (Hrun _) Hclock (Hsleep _)) as (m1 & H1 & Hq & _).
          exists m1. split; assumption.
        + exfalso. apply (proj2 Hm) in Hup. apply Hup. exact Hstart. }
    destruct Hstep as (m1 & H1 & Hq).
    assert (Hm1 : consistent m1).
    { replace m1 with (snd (tick E url m)) by (rewrite H1; reflexivity).
      eapply transition_keeps_consistent; [apply tick_transition | exact Hm]. }
    destruct (IH m1 Hm1) as (m' & Hloop & Hruns).
    exists m'. split.
    + rewrite (while_true_step _ _ _ _ H1). exact Hloop.
    + rewrite Hruns. unfold quiet_tick in Hq. rewrite Hq. cbn. lia.
Qed.

(** The process either stops at the credential file or enters the loop in
    the initial state, no request made and no call counted. *)
Lemma process_start (E : environment) (ticks : nat) :
  (exists e m1,
     load_webhook_url E boot = (Raise e, m1) /\
     monitor_network E ticks boot = (Raise e, m1) /\
     posts_of (trace m1) = [] /\
     notifier_entries m1 = 0%nat) \/
  (exists url m1,
     load_webhook_url E boot = (Ret url, m1) /\
     monitor_network E ticks boot =
       while_true ticks (tick E url) (entered E m1) /\
     network_is_up (entered E m1) = true /\
     downtime_start (entered E m1) = None /\
     posts_of (trace (entered E m1)) = [] /\
     made (entered E m1) = made boot).
Proof.
  pose proof (load_webhook_url_undisturbed E boot) as Hload.
  unfold wp in Hload.
  destruct (load_webhook_url E boot) as [[url | e] m1] eqn:Hm1;
    cbn in Hload; destruct Hload as ((_ & _ & Hposts & Hentries) & Hmade).
  - right. exists url, m1. split; [reflexivity |].
    split; [apply monitor_network_enters, Hm1 |].
    destruct (entered_view E m1) as (Hup & Hstart & Hposts' & Hmade').
    change (posts_of (trace boot)) with (@nil event) in Hposts.
    repeat split; try congruence.
    rewrite Hmade'. exact Hmade.
  - left. exists e, m1. split; [reflexivity |].
    split; [apply monitor_network_refused, Hm1 |].
    split; [exact Hposts | exact Hentries].
Qed.

(** C3: the notifier is entered, and a request made, only on a tick that
    finds the network back while the state is DOWN.  A process whose probes
    all succeed never enters the notifier and makes no request to the
    endpoint, and neither does one whose probes all fail; the latter, once
    it has entered the loop and as long as no clock read or sleep is cut
    short, is still running after any number of ticks, having probed once
    per tick. *)
Theorem notifier_called_only_on_recovery (E : environment) :
  (forall url m,
     posts_of (trace (snd (tick E url m))) <> posts_of (trace m) \/
     notifier_entries (snd (tick E url m)) <> notifier_entries m ->
     network_is_up m = false /\ run_reply E (runs (made m)) = Done 0) /\
  (forall ticks,
     (forall k, run_reply E k = Done 0) ->
     posts_of (trace (snd (monitor_network E ticks boot))) = [] /\
     notifier_entries (snd (monitor_network E ticks boot)) = 0%nat) /\
  (forall ticks,
     (forall k, probe_fails (run_reply E k)) ->
     posts_of (trace (snd (monitor_network E ticks boot))) = [] /\
     notifier_entries (snd (monitor_network E ticks boot)) = 0%nat /\
     (forall url,
        fst (load_webhook_url E boot) = Ret url ->
        (forall k, exists now, now_reply E k = Done now) ->
        (forall k, sleep_reply E k = Done tt) ->
        fst (monitor_network E ticks boot) = Ret tt /\
        runs (made (snd (monitor_network E ticks boot))) = ticks)).
Proof.
  split; [| split].
  - intros url m Hnew.
    destruct (tick_transition E url m)
      as [(_ & _ & Hposts & Hentries) | now _ _ _ _ Hposts Hentries
         | Hdown _ Hok _ _ _].
    + destruct Hnew; contradiction.
    + destruct Hnew; contradiction.
    + split; assumption.
  - intros ticks Hrun.
    destruct (process_start E ticks)
      as [(e & m1 & _ & -> & Hposts & Hentries)
         | (url & m1 & _ & -> & Hup & _ & Hposts & Hmade)].
    + split; assumption.
    + destruct (loop_all_reachable E url ticks (entered E m1) Hup Hrun)
        as (_ & Hposts' & Hentries').
      split; [congruence |].
      rewrite Hentries'. unfold notifier_entries. rewrite Hmade. reflexivity.
  - intros ticks Hrun.
    destruct (process_start E ticks)
      as [(e & m1 & Hload & -> & Hposts & Hentries)
         | (url & m1 & Hload & -> & Hup & Hstart & Hposts & Hmade)].
    + split; [exact Hposts |]. split; [exact Hentries |].
      intros url Hurl. rewrite Hload in Hurl. discriminate Hurl.
    + destruct (loop_all_unreachable E url ticks (entered E m1) Hrun)
        as (Hposts' & Hentries').
      split; [congruence |]. split.
      { rewrite Hentries'. unfold notifier_entries. rewrite Hmade.
        reflexivity. }
      intros url' _ Hnow Hsleep.
      destruct (loop_keeps_running E url ticks Hrun Hnow Hsleep
                  (entered E m1)) as (m' & Hloop & Hruns).
      { apply initially_consistent; assumption. }
      rewrite Hloop. cbn [fst snd]. split; [reflexivity |].
      rewrite Hruns, Hmade. reflexivity.
Qed.

(** C8: on a tick that finds the network back (state DOWN, probe
    successful), whether the notifier returns success or failure, the state
    afterwards is UP with [downtime_start] cleared; the tick has entered the
    notifier once and made exactly one request to the endpoint (no retry);
    when the sleep then completes, the tick ends normally and the loop goes
    on. *)
Theorem recovery_tick_reports_once (E : environment) (url : str)
    (m : machine) (started now generated : datetime) :
  network_is_up m = false ->
  downtime_start m = Some started ->
  run_reply E (runs (made m)) = Done 0 ->
  now_reply E (clock_reads (made m)) = Done now ->
  utcnow_reply E (utc_clock_reads (made m)) = Done generated ->
  interrupts (post_reply E (posts (made m))) = false ->
  network_is_up (snd (tick E url m)) = true /\
  downtime_start (snd (tick E url m)) = None /\
  notifier_entries (snd (tick E url m)) = S (notifier_entries m) /\
  posts_of (trace (snd (tick E url m))) =
    posts_of (trace m) ++
    [Post url
       (notification (strftime E started (lit "%Y-%m-%d %H:%M:%S"))
                     (strftime E now (lit "%Y-%m-%d %H:%M:%S"))
                     (format_duration (now - started)) (isoformat E generated))
       10] /\
  (sleep_reply E (sleeps (made m)) = Done tt ->
   fst (tick E url m) = Ret tt).
Proof.
  intros Hdown Hstart Hrun Hnow Hutc Hpost.
  destruct (tick_network_restored E url m started now generated
              Hdown Hstart Hrun Hnow Hutc) as (Hposts & Hentries & Hstate).
  destruct (Hstate Hpost) as (Hup' & Hstart' & Hgoes).
  repeat split; assumption.
Qed.

Lemma while_true_last (body : M unit) (m : machine) :
  snd (while_true 1 body m) = snd (body m).
Proof.
  cbn [while_true]. unfold bind. destruct (body m) as [[[] | e] m1];
    reflexivity.
Qed.

Ltac at_call Hmade :=
  rewrite Hmade; cbn [runs clock_reads utc_clock_reads posts sleeps];
  auto with arith.

(** C1: fed the probe results true, true, false, false, false, true, one
    per tick, the process enters the notifier once and makes exactly one
    request to the endpoint.  Its body gives as start the instant read at
    the tick of the first failed probe and as end the instant read at the
    tick of the final successful probe; the reported duration is their
    difference, three tick intervals when the ticks are evenly spaced. *)
Theorem single_outage_reported_once (E : environment) (url : str)
    (t0 t1 t2 t3 t4 t5 generated : datetime) :
  fst (load_webhook_url E boot) = Ret url ->
  Forall2 probe_says [true; true; false; false; false; true]
          (map (run_reply E) (seq 0 6)) ->
  map (now_reply E) (seq 0 6) = map Done [t0; t1; t2; t3; t4; t5] ->
  (forall k, (k < 5)%nat -> sleep_reply E k = Done tt) ->
  utcnow_reply E 0 = Done generated ->
  notifier_entries (snd (monitor_network E 6 boot)) = 1%nat /\
  posts_of (trace (snd (monitor_network E 6 boot))) =
    [Post url
       (notification (strftime E t2 (lit "%Y-%m-%d %H:%M:%S"))
                     (strftime E t5 (lit "%Y-%m-%d %H:%M:%S"))
                     (format_duration (t5 - t2)) (isoformat E generated))
       10] /\
  (forall interval,
     t3 = t2 + interval -> t4 = t3 + interval -> t5 = t4 + interval ->
     format_duration (t5 - t2) = format_duration (3 * interval)).
Proof.
  intros Hload Hprobes Hclock Hsleep Hutc.
  cut (notifier_entries (snd (monitor_network E 6 boot)) = 1%nat /\
       posts_of (trace (snd (monitor_network E 6 boot))) =
         [Post url
            (notification (strftime E t2 (lit "%Y-%m-%d %H:%M:%S"))
                          (strftime E t5 (lit "%Y-%m-%d %H:%M:%S"))
                          (format_duration (t5 - t2)) (isoformat E generated))
            10]).
  { intros [Hentries Hposts]. split; [exact Hentries |].
    split; [exact Hposts |]. intros interval -> -> ->. f_equal. lia. }
  cbn [map seq] in Hprobes, Hclock.
  repeat match goal with
  | H : Forall2 _ _ _ |- _ => inversion H; clear H; subst
  end.
  cbn [probe_says] in *.
  injection Hclock as Hc0 Hc1 Hc2 Hc3 Hc4 Hc5.
  destruct (process_start E 6)
    as [(e & m & Hl & _) | (u & m & Hl & -> & Hup & Hstart & Hposts & Hmade)];
    rewrite Hl in Hload; [discriminate Hload |].
  cbn [fst] in Hload. injection Hload as ->.
  remember (entered E m) as m0 eqn:Hm0. clear Hm0 Hl m.
  destruct (tick_network_ok E url m0 t0) as (m1 & T1 & Q1 & U1 & S1 & P1);
    try (at_call Hmade; fail); try assumption.
  unfold quiet_tick in Q1. rewrite Hmade in Q1. cbn in Q1.
  rewrite (while_true_step _ _ _ _ T1).
  destruct (tick_network_ok E url m1 t1) as (m2 & T2 & Q2 & U2 & S2 & P2);
    try (at_call Q1; fail); try assumption.
  unfold quiet_tick in Q2. rewrite Q1 in Q2. cbn in Q2.
  rewrite (while_true_step _ _ _ _ T2).
  destruct (tick_network_lost E url m2 t2) as (m3 & T3 & Q3 & U3 & S3 & P3);
    try (at_call Q2; fail); try assumption.
  unfold quiet_tick in Q3. rewrite Q2 in Q3. cbn in Q3.
  rewrite (while_true_step _ _ _ _ T3).
  destruct (tick_network_still_down E url m3 t2 t3)
    as (m4 & T4 & Q4 & U4 & S4 & P4);
    try (at_call Q3; fail); try assumption.
  unfold quiet_tick in Q4. rewrite Q3 in Q4. cbn in Q4.
  rewrite (while_true_step _ _ _ _ T4).
  destruct (tick_network_still_down E url m4 t2 t4)
    as (m5 & T5 & Q5 & U5 & S5 & P5);
    try (at_call Q4; fail); try assumption.
  unfold quiet_tick in Q5. rewrite Q4 in Q5. cbn in Q5.
  rewrite (while_true_step _ _ _ _ T5).
  rewrite while_true_last.
  destruct (tick_network_restored E url m5 t2 t5 generated) as (P6 & N6 & _);
    try (at_call Q5; fail); try assumption.
  split.
  - rewrite N6. unfold notifier_entries. rewrite Q5. reflexivity.
  - rewrite P6, P5, P4, P3, P2, P1, Hposts. reflexivity.
Qed.

(** ** Leaving the loop *)

(** An interrupt raised anywhere in the body of the [try] ends the process
    with status 0; nothing is done after it. *)
Lemma interrupt_in_body_exits (E : environment) (url : str) (m : machine) :
  fst (tick_body E url m) = Raise KeyboardInterrupt ->
  tick E url m = (Raise (SystemExit 0), snd (tick_body E url m)) /\
  exit_status (fst (tick E url m)) = Some 0.
Proof.
  intros H. unfold tick, try_except.
  destruct (tick_body E url m) as [o m1]. cbn in H. subst o.
  split; reflexivity.
Qed.

(** X16: an error raised in the body of the [try] is logged with its
    message; the tick then sleeps for [PING_INTERVAL] and, when that sleep
    completes, ends normally, so that the loop goes on. *)
Lemma error_in_body_is_logged (E : environment) (url : str) (m : machine)
    (e : exn) :
  fst (tick_body E url m) = Raise e ->
  is_Exception e = true ->
  sleep_reply E (sleeps (made (snd (tick_body E url m)))) = Done tt ->
  fst (tick E url m) = Ret tt /\
  trace (snd (tick E url m)) =
    trace (snd (tick_body E url m)) ++
    [Write (NL ++ lit " !! Unexpected error: " ++ exn_str e ++ NL);
     Sleep PING_INTERVAL].
Proof.
  intros H He Hsleep. unfold tick, try_except.
  destruct (tick_body E url m) as [o m1]. cbn in H, Hsleep. subst o.
  destruct e; try discriminate He; run_script; cbn; rewrite Hsleep; cbn;
    rewrite <- !app_assoc; split; reflexivity.
Qed.

(** The sleep of the second [except] clause is outside the [try]: what it
    raises leaves the loop as it is. *)
Lemma recovery_sleep_is_unguarded (E : environment) (url : str) (m : machine)
    (e e' : exn) :
  fst (tick_body E url m) = Raise e ->
  is_Exception e = true ->
  sleep_reply E (sleeps (made (snd (tick_body E url m)))) = Fails e' ->
  fst (tick E url m) = Raise e'.
Proof.
  intros H He Hsleep. unfold tick, try_except.
  destruct (tick_body E url m) as [o m1]. cbn in H, Hsleep. subst o.
  destruct e; try discriminate He; run_script; cbn; rewrite Hsleep;
    reflexivity.
Qed.

(** Interrupts at the three places where the process spends its time:
    the tick exits with status 0, and does nothing after the call that was
    interrupted. *)

(** X13: an interrupt while the probe runs ends the tick with status 0,
    in any state; the state machine is left as it was and no request is
    made. *)
Lemma interrupt_while_probing (E : environment) (url : str) (m : machine) :
  run_reply E (runs (made m)) = Fails KeyboardInterrupt ->
  fst (tick E url m) = Raise (SystemExit 0) /\
  undisturbed m (snd (tick E url m)).
Proof.
  intros Hrun. unfold undisturbed, notifier_entries. run_script.
  rewrite Hrun. cbn. repeat split. count_posts. reflexivity.
Qed.

(** X14: an interrupt during the sleep that ends a tick of an outage in
    progress ends the tick with status 0; the outage is not reported: the
    state stays DOWN, the notifier is not entered and no request is made. *)
Lemma interrupt_while_asleep_down (E : environment) (url : str)
    (m : machine) (started now : datetime) :
  network_is_up m = false ->
  downtime_start m = Some started ->
  probe_fails (run_reply E (runs (made m))) ->
  now_reply E (clock_reads (made m)) = Done now ->
  sleep_reply E (sleeps (made m)) = Fails KeyboardInterrupt ->
  fst (tick E url m) = Raise (SystemExit 0) /\
  undisturbed m (snd (tick E url m)).
Proof.
  intros Hup Hstart Hrun Hnow Hsleep.
  unfold undisturbed, notifier_entries. run_script.
  failed_probe Hrun; rewrite Hnow; cbn; rewrite Hup, Hstart; cbn;
    rewrite Hsleep; cbn; repeat split; try assumption; count_posts;
    reflexivity.
Qed.

(** X15: an interrupt during the request to the endpoint ends the tick
    with status 0; the request is the last thing the tick did: no line is
    logged for it and the tick does not sleep. *)
Lemma interrupt_while_notifying (E : environment) (url : str)
    (m : machine) (started now generated : datetime) :
  network_is_up m = false ->
  downtime_start m = Some started ->
  run_reply E (runs (made m)) = Done 0 ->
  now_reply E (clock_reads (made m)) = Done now ->
  utcnow_reply E (utc_clock_reads (made m)) = Done generated ->
  post_reply E (posts (made m)) = Fails KeyboardInterrupt ->
  fst (tick E url m) = Raise (SystemExit 0) /\
  exists request,
    trace (snd (tick E url m)) =
      trace m ++
      [Run (ping_command E PING_TARGET PING_TIMEOUT) (PING_TIMEOUT + 1);
       Write ((NL ++ lit " ++ Network restored at "
               ++ strftime E now (lit "%H:%M:%S")) ++ NL);
       Write ((lit " ++ Downtime duration: "
               ++ format_duration (now - started)) ++ NL);
       request] /\
    is_post request = true.
Proof.
  intros Hup Hstart Hrun Hnow Hutc Hpost. run_script.
  rewrite Hrun. cbn. rewrite Hnow. cbn. rewrite Hup, Hstart. cbn.
  rewrite Hutc. cbn. rewrite Hpost. cbn.
  split; [reflexivity |]. eexists. split.
  - rewrite <- !app_assoc. reflexivity.
  - reflexivity.
Qed.

(** C9: an interrupt during the sleep that ends a tick stops the process
    with status 0 and no request to the endpoint, even in the DOWN state.
    After an error in a tick, the same interrupt during the sleep of the
    error handler is not caught: the process ends on the uncaught
    [KeyboardInterrupt], with a status that is not 0. *)
Theorem interrupt_during_recovery_sleep :
  (exit_status (fst (monitor_network interrupted_asleep 2 boot)) = Some 0 /\
   network_is_up (snd (monitor_network interrupted_asleep 2 boot)) = false /\
   posts_of (trace (snd (monitor_network interrupted_asleep 2 boot))) = []) /\
  (fst (monitor_network interrupted_after_error 2 boot)
     = Raise KeyboardInterrupt /\
   exit_status (fst (monitor_network interrupted_after_error 2 boot))
     = Some 130 /\
   posts_of (trace (snd (monitor_network interrupted_after_error 2 boot)))
     = []).
Proof. vm_compute. repeat split. Qed.

(** * Further properties *)

(** ** More on [format_duration] *)

Lemma int_total_seconds_whole (s : Z) :
  int_total_seconds (timedelta_seconds s) = s.
Proof. unfold int_total_seconds, timedelta_seconds. apply Z.quot_mul. lia. Qed.



(** X4: a span of [h] hours, [m] minutes and [s] seconds is printed as its
    units, largest first, joined by ", "; a unit whose value is 0 is left
    out, except the seconds of a span under a minute. *)
Theorem format_duration_units (h m s : Z) :
  0 <= h -> 0 <= m < 60 -> 0 <= s < 60 ->
  format_duration (timedelta_seconds (3600 * h + 60 * m + s)) =
    join (lit ", ")
      ((if 0 <? h then [str_of_int h ++ lit " hour" ++ plural h] else [])
       ++ (if 0 <? m then [str_of_int m ++ lit " minute" ++ plural m] else [])
       ++ (if (0 <? s) || (h =? 0) && (m =? 0)
           then [str_of_int s ++ lit " second" ++ plural s] else [])).
Proof.
  intros Hh Hm Hs. unfold format_duration.
  rewrite int_total_seconds_whole.
  assert (Hhours : (3600 * h + 60 * m + s) / 3600 = h).
  { symmetry. apply (Z.div_unique_pos _ _ h (60 * m + s)); lia. }
  assert (Hrest : (3600 * h + 60 * m + s) mod 3600 = 60 * m + s).
  { symmetry. apply (Z.mod_unique_pos _ _ h (60 * m + s)); lia. }
  assert (Hminutes : (60 * m + s) / 60 = m).
  { symmetry. apply (Z.div_unique_pos _ _ m s); lia. }
  assert (Hseconds : (3600 * h + 60 * m + s) mod 60 = s).
  { symmetry. apply (Z.mod_unique_pos _ _ (60 * h + m) s); lia. }
  rewrite Hhours, Hrest, Hminutes, Hseconds. cbn [app].
  destruct (Z.ltb_spec 0 h), (Z.ltb_spec 0 m), (Z.ltb_spec 0 s);
    destruct (Z.eqb_spec h 0), (Z.eqb_spec m 0);
    cbn [app orb andb]; try reflexivity; lia.
Qed.

(** X3: hours are printed only when positive, and minutes and seconds are
    remainders that are never negative: a negative span of whole seconds
    (the clock was set back) is printed as the span under an hour that
    differs from it by a whole number of hours. *)
Theorem format_duration_negative (s : Z) :
  s < 0 ->
  format_duration (timedelta_seconds s)
    = format_duration (timedelta_seconds (s mod 3600)).
Proof.
  intros Hs. unfold format_duration. rewrite !int_total_seconds_whole.
  assert (Hr : 0 <= s mod 3600 < 3600) by (apply Z.mod_pos_bound; lia).
  assert (H1 : (0 <? s / 3600) = false).
  { apply Z.ltb_ge. assert (s / 3600 < 0) by (apply Z.div_lt_upper_bound; lia).
    lia. }
  assert (H2 : (0 <? (s mod 3600) / 3600) = false).
  { rewrite Z.div_small by lia. reflexivity. }
  rewrite H1, H2, Z.mod_mod by lia.
  rewrite (Z.mod_mod_divide s 3600 60) by (exists 60; reflexivity).
  reflexivity.
Qed.

(** ** More on [load_webhook_url] *)

Lemma lstrip_fixed (s : str) :
  (forall c rest, s = c :: rest -> isspace c = false) -> lstrip s = s.
Proof.
  destruct s as [| c rest]; [reflexivity |]. intros H. cbn [lstrip].
  rewrite (H c rest eq_refl). reflexivity.
Qed.

Lemma rstrip_fixed (s : str) :
  (forall c init, s = init ++ [c] -> isspace c = false) -> rstrip s = s.
Proof.
  intros H. unfold rstrip. rewrite lstrip_fixed; [apply rev_involutive |].
  intros c rest Hrev. apply (H c (rev rest)).
  rewrite <- (rev_involutive s), Hrev. reflexivity.
Qed.

Lemma strip_idempotent (s : str) : strip (strip s) = strip s.
Proof.
  destruct (strip_spec s) as (_ & Hfirst & Hlast).
  unfold strip at 1. rewrite (lstrip_fixed (strip s) Hfirst).
  apply rstrip_fixed, Hlast.
Qed.

(** X5: what [load_webhook_url] returns is the stripped content of the
    file; it has no whitespace left at either end and is empty or starts
    with "http".  A load that succeeds prints nothing. *)
Theorem load_webhook_url_returns (E : environment) (m m' : machine)
    (url : str) :
  load_webhook_url E m = (Ret url, m') ->
  m' = m /\
  (exists content, webhook_file E = Done content /\ url = strip content) /\
  strip url = url /\
  (url = [] \/ startswith url (lit "http") = true).
Proof.
  run_script. destruct (webhook_file E) as [content | e]; cbn.
  - destruct (str_eqb (strip content) []) eqn:Hempty; cbn.
    + intros [= <- <-]. apply str_eqb_nil in Hempty.
      split; [reflexivity |]. split; [exists content; split; reflexivity |].
      split; [apply strip_idempotent | left; exact Hempty].
    + destruct (startswith (strip content) (lit "http")) eqn:Hprefix; cbn.
      * intros [= <- <-]. split; [reflexivity |].
        split; [exists content; split; reflexivity |].
        split; [apply strip_idempotent | right; exact Hprefix].
      * discriminate.
  - destruct e; cbn; discriminate.
Qed.

(** X6: only a missing file is announced.  Any other failure to read the
    credential file (no permission, a directory, bytes that do not decode)
    leaves [load_webhook_url] as it was raised: nothing is printed, the
    loop is not entered, and the process ends on the uncaught error. *)
Theorem unreadable_credential_is_not_caught (E : environment) (m : machine)
    (e : exn) (ticks : nat) :
  webhook_file E = Fails e ->
  (forall msg, e <> FileNotFoundError msg) ->
  load_webhook_url E m = (Raise e, m) /\
  monitor_network E ticks m = (Raise e, m) /\
  (is_Exception e = true ->
   exit_status (fst (monitor_network E ticks m)) = Some 1).
Proof.
  intros Hfile Hother.
  assert (Hload : load_webhook_url E m = (Raise e, m)).
  { run_script. rewrite Hfile.
    destruct e; try reflexivity. contradiction (Hother msg). reflexivity. }
  split; [exact Hload |].
  rewrite (monitor_network_refused E ticks m m e Hload).
  split; [reflexivity |]. destruct e; cbn; try discriminate; reflexivity.
Qed.

(** ** What the prober and the notifier let through *)

(** X7: [ping] catches [Exception] only.  An interrupt ([KeyboardInterrupt])
    or a request to exit raised while the command runs reaches the caller
    as it is, after the one command and without a line in the log. *)
Theorem ping_lets_interrupts_through (E : environment) (host : str)
    (timeout : Z) (m : machine) (e : exn) :
  run_reply E (runs (made m)) = Fails e ->
  is_Exception e = false ->
  fst (ping E host timeout m) = Raise e /\
  trace (snd (ping E host timeout m)) =
    trace m ++ [Run (ping_command E host timeout) (timeout + 1)] /\
  undisturbed m (snd (ping E host timeout m)).
Proof.
  intros Hrun He. unfold undisturbed, notifier_entries. run_script.
  rewrite Hrun. destruct e; try discriminate He; cbn;
    (repeat split; count_posts; reflexivity).
Qed.

(** X8: the notifier builds its message outside its [try], and catches
    [Exception] only around the request.  If reading the clock for the stamp
    of the message fails, the error leaves the notifier and no request is
    made; an interrupt during the request leaves it too, after the one
    request and without a line in the log.  In neither case, nor on any
    other path, does the notifier touch the two variables of the state
    machine. *)
Theorem notifier_lets_through (E : environment) (url : str)
    (started restored : datetime) (duration : timedelta) (m : machine) :
  (forall e,
     utcnow_reply E (utc_clock_reads (made m)) = Fails e ->
     fst (send_discord_notification E url (Some started) restored duration m)
       = Raise e /\
     trace (snd (send_discord_notification E url (Some started) restored
                                           duration m)) = trace m) /\
  (forall generated e,
     utcnow_reply E (utc_clock_reads (made m)) = Done generated ->
     post_reply E (posts (made m)) = Fails e ->
     is_Exception e = false ->
     fst (send_discord_notification E url (Some started) restored duration m)
       = Raise e /\
     trace (snd (send_discord_notification E url (Some started) restored
                                           duration m)) =
       trace m ++
       [Post url
          (notification (strftime E started (lit "%Y-%m-%d %H:%M:%S"))
                        (strftime E restored (lit "%Y-%m-%d %H:%M:%S"))
                        (format_duration duration) (isoformat E generated))
          10]) /\
  network_is_up
    (snd (send_discord_notification E url (Some started) restored duration m))
    = network_is_up m /\
  downtime_start
    (snd (send_discord_notification E url (Some started) restored duration m))
    = downtime_start m.
Proof.
  split; [| split].
  - intros e Hutc. run_script. rewrite Hutc. split; reflexivity.
  - intros generated e Hutc Hpost He. run_script. rewrite Hutc. cbn.
    rewrite Hpost. destruct e; try discriminate He; split; reflexivity.
  - pose proof (notifier_spec E url started restored duration m) as H.
    unfold wp in H. destruct H as (Hup & Hstart & _). split; assumption.
Qed.

(** ** The state machine, whatever goes wrong *)

Lemma reported_undisturbed (m0 m1 m2 : machine) :
  reported m0 m1 -> undisturbed m1 m2 -> reported m0 m2.
Proof.
  intros R (Hup & _ & Hposts & _) Hdown Hback.
  rewrite Hposts. apply R; congruence.
Qed.

Lemma undisturbed_reported (m0 m1 : machine) :
  undisturbed m0 m1 -> reported m0 m1.
Proof. intros (Hup & _) Hdown Hback. congruence. Qed.

Lemma tick_body_reported (E : environment) (url : str) (m : machine) :
  wp (tick_body E url) m (fun _ m1 => reported m m1).
Proof.
  unfold tick_body.
  apply wp_bind. eapply wp_weaken; [apply ping_spec |].
  intros [is_reachable | e] m1 [U1 _];
    [| apply undisturbed_reported, U1].
  apply wp_bind. eapply wp_weaken; [apply datetime_now_undisturbed |].
  intros [current_time | e] m2 U2;
    [| apply undisturbed_reported; eapply undisturbed_trans; eassumption].
  assert (U : undisturbed m m2) by (eapply undisturbed_trans; eassumption).
  clear U1 U2. destruct U as (Hup & Hstart & Hposts & Hentries).
  apply wp_bind.
  apply wp_weaken with (Q := fun _ m3 => reported m m3).
  2: { intros [[] | e] m3 R; [| exact R].
       eapply wp_weaken; [apply time_sleep_undisturbed |].
       intros o4 m4 U4. eapply reported_undisturbed; eassumption. }
  unfold reported.
  destruct is_reachable; unfold wp; run_locals;
    destruct (network_is_up m2) eqn:Hm; cbn [negb fst snd];
    try (intros Hdown Hback; cbn in Hback; congruence);
    destruct (downtime_start m2) as [started |] eqn:Hs; cbn [fst snd];
    try (intros Hdown Hback; cbn in Hback; congruence).
  match goal with
  | |- context [send_discord_notification E url (Some ?a) ?b ?c ?m'] =>
      pose proof (notifier_spec E url a b c m') as N; unfold wp in N;
      destruct (send_discord_notification E url (Some a) b c m')
        as [[sent | e] m3]
  end; cbn [fst snd] in N;
    destruct N as (Hup3 & Hstart3 & Hentries3 & Hposts3);
    cbn [network_is_up downtime_start trace made] in *;
    repeat rewrite posts_of_write in Hposts3.
  - destruct Hposts3 as (p & Hp). intros _ _. exists p.
    cbn [fst snd trace]. count_posts. congruence.
  - intros Hdown Hback. cbn in Hback. congruence.
Qed.

Lemma tick_reported (E : environment) (url : str) (m : machine) :
  reported m (snd (tick E url m)).
Proof.
  change (wp (tick E url) m (fun _ m1 => reported m m1)).
  unfold tick. apply wp_try.
  eapply wp_weaken; [apply tick_body_reported |].
  intros [[] | e] m1 R; [exact R |].
  destruct (tick_handler E e) as [h |] eqn:Hh; [| exact R].
  eapply wp_weaken; [eapply tick_handler_undisturbed, Hh |].
  intros o2 m2 U. eapply reported_undisturbed; eassumption.
Qed.

(** X12: whatever the environment does in a tick (errors and interrupts
    included), the state machine makes one of its moves or none.  From UP it
    stays UP, or goes DOWN with an instant as the start of the outage, and
    makes no request.  From DOWN since [started] it stays DOWN since
    [started] (the start of an outage is never moved), or goes UP with the
    start cleared, and then the tick has made one request: no outage ends
    without an attempt to report it. *)
Theorem state_machine_moves (E : environment) (url : str) (m : machine) :
  (network_is_up m = true ->
   posts_of (trace (snd (tick E url m))) = posts_of (trace m) /\
   (network_is_up (snd (tick E url m)) = true /\
    downtime_start (snd (tick E url m)) = downtime_start m \/
    network_is_up (snd (tick E url m)) = false /\
    exists now, downtime_start (snd (tick E url m)) = Some now)) /\
  (forall started,
     network_is_up m = false ->
     downtime_start m = Some started ->
     network_is_up (snd (tick E url m)) = false /\
     downtime_start (snd (tick E url m)) = Some started \/
     network_is_up (snd (tick E url m)) = true /\
     downtime_start (snd (tick E url m)) = None /\
     exists p,
       posts_of (trace (snd (tick E url m))) = posts_of (trace m) ++ [p]).
Proof.
  split.
  - intros Hup.
    destruct (tick_transition E url m)
      as [(Hup' & Hstart' & Hposts & _) | now _ _ Hup' Hstart' Hposts _
         | Hdown _ _ _ _ _].
    + split; [exact Hposts |]. left. split; congruence.
    + split; [exact Hposts |]. right. split; [exact Hup' |].
      exists now. exact Hstart'.
    + congruence.
  - intros started Hdown Hstart.
    destruct (tick_transition E url m)
      as [(Hup' & Hstart' & _) | now Hup _ _ _ _ _
         | _ _ _ _ _ [[Hup' Hstart'] | [Hup' Hstart']]].
    + left. split; congruence.
    + congruence.
    + right. split; [exact Hup' |]. split; [exact Hstart' |].
      apply (tick_reported E url m); assumption.
    + left. split; congruence.
Qed.

(** ** The calls of a tick *)

Lemma calm_refl (E : environment) (url : str) (m : machine) : calm E url m m.
Proof. split; [reflexivity | exact (fun H => H)]. Qed.

Lemma calm_trans (E : environment) (url : str) (m1 m2 m3 : machine) :
  calm E url m1 m2 -> calm E url m2 m3 -> calm E url m1 m3.
Proof. intros [R1 T1] [R2 T2]. split; [congruence | auto]. Qed.

Ltac keep_allowed :=
  cbn [trace made runs];
  split; [reflexivity |];
  intros Hall; repeat (apply Forall_app; split); try exact Hall;
  repeat constructor.

Lemma datetime_now_calm (E : environment) (url : str) (m : machine) :
  wp (datetime_now E) m (fun _ m1 => calm E url m m1).
Proof. unfold wp. run_script. keep_allowed. Qed.

Lemma time_sleep_calm (E : environment) (url : str) (m : machine) :
  wp (time_sleep E PING_INTERVAL) m (fun _ m1 => calm E url m m1).
Proof. unfold wp. run_script. keep_allowed. Qed.

Lemma notifier_calm (E : environment) (url : str)
    (started : option datetime) (restored : datetime) (duration : timedelta)
    (m : machine) :
  wp (send_discord_notification E url started restored duration) m
     (fun _ m1 => calm E url m m1).
Proof.
  unfold wp. run_script. destruct started as [s |]; cbn; [| keep_allowed].
  destruct (utcnow_reply E (utc_clock_reads (made m))) as [u | e]; cbn;
    [| keep_allowed].
  destruct (post_reply E (posts (made m))) as [status | []]; cbn;
    try destruct (status =? 204); cbn; keep_allowed.
Qed.

Lemma tick_handler_calm (E : environment) (url : str) (e : exn) (h : M unit)
    (m : machine) :
  tick_handler E e = Some h -> wp h m (fun _ m1 => calm E url m m1).
Proof.
  destruct e; cbn; intros [= <-]; unfold wp; run_script; keep_allowed.
Qed.

Lemma ping_probes_once (E : environment) (url : str) (m : machine) :
  wp (ping E PING_TARGET PING_TIMEOUT) m
     (fun _ m1 =>
        runs (made m1) = S (runs (made m)) /\
        network_is_up m1 = network_is_up m /\
        downtime_start m1 = downtime_start m /\
        (Forall (allowed E url) (trace m) ->
         Forall (allowed E url) (trace m1))).
Proof.
  unfold wp. run_script.
  destruct (run_reply E (runs (made m))) as [returncode | []]; cbn;
    (split; [reflexivity |]; split; [reflexivity |]; split; [reflexivity |];
     intros Hall; repeat (apply Forall_app; split); try exact Hall;
     repeat constructor).
Qed.

Lemma tick_body_calls (E : environment) (url : str) (m : machine) :
  wp (tick_body E url) m
     (fun _ m1 =>
        runs (made m1) = S (runs (made m)) /\
        (Forall (allowed E url) (trace m) ->
         Forall (allowed E url) (trace m1))).
Proof.
  unfold tick_body.
  apply wp_bind. eapply wp_weaken; [apply (ping_probes_once E url) |].
  intros [is_reachable | e] m1 (R1 & _ & _ & T1); [| split; assumption].
  apply wp_weaken with (Q := fun _ m2 => calm E url m1 m2);
    [| intros o m2 [R2 T2]; split; [congruence | auto]].
  apply wp_bind. eapply wp_weaken; [apply (datetime_now_calm E url) |].
  intros [current_time | e] m2 C2; [| exact C2].
  apply wp_bind.
  apply wp_weaken with (Q := fun _ m3 => calm E url m1 m3).
  2: { intros [[] | e] m3 C3; [| exact C3].
       eapply wp_weaken; [apply (time_sleep_calm E url) |].
       intros o4 m4 C4. eapply calm_trans; eassumption. }
  apply wp_weaken with (Q := fun _ m3 => calm E url m2 m3);
    [| intros o m3 C3; eapply calm_trans; eassumption].
  clear C2 R1 T1.
  destruct is_reachable; unfold wp; run_locals;
    destruct (network_is_up m2); cbn [negb fst snd]; try keep_allowed;
    destruct (downtime_start m2) as [started |]; cbn [fst snd];
    try keep_allowed.
  match goal with
  | |- context [send_discord_notification E url ?a ?b ?c ?m'] =>
      pose proof (notifier_calm E url a b c m') as N; unfold wp in N;
      destruct (send_discord_notification E url a b c m') as [[sent | e] m3]
  end; cbn [fst snd] in *; destruct N as [R3 T3];
    cbn [trace made runs] in *; (split; [exact R3 |]); intros Hall;
    repeat (apply Forall_app; split); try (repeat constructor; fail);
    apply T3; repeat (apply Forall_app; split); try exact Hall;
    repeat constructor.
Qed.

Lemma tick_calls (E : environment) (url : str) (m : machine) :
  runs (made (snd (tick E url m))) = S (runs (made m)) /\
  (Forall (allowed E url) (trace m) ->
   Forall (allowed E url) (trace (snd (tick E url m)))).
Proof.
  change (wp (tick E url) m
            (fun _ m1 =>
               runs (made m1) = S (runs (made m)) /\
               (Forall (allowed E url) (trace m) ->
                Forall (allowed E url) (trace m1)))).
  unfold tick. apply wp_try.
  eapply wp_weaken; [apply tick_body_calls |].
  intros [[] | e] m1 [R1 T1]; [split; assumption |].
  destruct (tick_handler E e) as [h |] eqn:Hh; [| split; assumption].
  eapply wp_weaken; [eapply (tick_handler_calm E url), Hh |].
  intros o2 m2 [R2 T2]. split; [congruence | auto].
Qed.

Lemma print_calm (E : environment) (url : str) (s : str) (m : machine) :
  wp (print s) m (fun o m1 => o = Ret tt /\ calm E url m m1).
Proof. unfold wp. cbn. split; [reflexivity |]. keep_allowed. Qed.

Lemma banner_calm (E : environment) (url : str) (m : machine) :
  wp (banner E) m (fun _ m1 => calm E url m m1).
Proof.
  unfold banner.
  repeat (apply wp_bind; eapply wp_weaken; [apply (print_calm E url) |];
          intros ? ? (-> & ?)).
  eapply wp_weaken; [apply (print_calm E url) |].
  intros ? ? (-> & ?).
  repeat match goal with
  | H1 : calm E url ?a ?b, H2 : calm E url ?b ?c |- _ =>
      pose proof (calm_trans E url a b c H1 H2); clear H2
  end.
  assumption.
Qed.

(** X9: whatever the environment does, a tick runs the probe exactly once
    and makes at most one request to the endpoint; so a loop of [ticks]
    iterations has probed at most [ticks] times, exactly [ticks] times when
    it is still running. *)
Theorem tick_probes_once (E : environment) (url : str) :
  (forall m,
     runs (made (snd (tick E url m))) = S (runs (made m)) /\
     (posts_of (trace (snd (tick E url m))) = posts_of (trace m) \/
      exists p,
        posts_of (trace (snd (tick E url m))) = posts_of (trace m) ++ [p])) /\
  (forall ticks m,
     (runs (made (snd (while_true ticks (tick E url) m)))
        <= runs (made m) + ticks)%nat /\
     (fst (while_true ticks (tick E url) m) = Ret tt ->
      runs (made (snd (while_true ticks (tick E url) m)))
        = (runs (made m) + ticks)%nat)).
Proof.
  split.
  - intros m. split; [apply tick_calls |].
    destruct (tick_transition E url m)
      as [(_ & _ & Hposts & _) | now _ _ _ _ Hposts _ | _ _ _ _ Hposts _].
    + left. exact Hposts.
    + left. exact Hposts.
    + exact Hposts.
  - induction ticks as [| ticks IH]; intros m.
    + cbn. split; [lia | intros _; lia].
    + cbn [while_true]. unfold bind.
      destruct (tick_calls E url m) as [Hruns _].
      destruct (tick E url m) as [[[] | e] m1]; cbn [fst snd] in *.
      * destruct (IH m1) as [Hle Heq]. rewrite Hruns in Hle, Heq.
        split; [lia |]. intros Hret. rewrite (Heq Hret). lia.
      * split; [lia | discriminate].
Qed.

Lemma load_success_is_silent (E : environment) (m m' : machine) (url : str) :
  load_webhook_url E m = (Ret url, m') -> m' = m.
Proof.
  run_script. destruct (webhook_file E) as [content | []]; cbn;
    try discriminate.
  destruct (negb (str_eqb (strip content) []) &&
            negb (startswith (strip content) (lit "http"))); cbn;
    [discriminate | intros [= _ <-]; reflexivity].
Qed.

(** X10: once the credential is loaded, the process runs no command but the
    probe of [PING_TARGET], bounded by the probe timeout and a second; it
    sends requests to no address but the one loaded from the file, each
    bounded by ten seconds; and it never sleeps longer or shorter than
    [PING_INTERVAL], in whatever state and after whatever error. *)
Theorem process_makes_allowed_calls_only (E : environment) (ticks : nat)
    (url : str) (m1 : machine) :
  load_webhook_url E boot = (Ret url, m1) ->
  Forall (allowed E url) (trace (snd (monitor_network E ticks boot))).
Proof.
  intros Hload.
  rewrite (monitor_network_enters E ticks boot m1 url Hload).
  apply (while_true_keeps (fun m => Forall (allowed E url) (trace m))).
  - intros m. apply tick_calls.
  - rewrite (load_success_is_silent E boot m1 url Hload).
    pose proof (banner_calm E url boot) as [_ Hb].
    unfold entered. cbn [trace]. apply Hb. constructor.
Qed.

(** ** Every outage is reported once *)

Lemma tick_network_restored_counts (E : environment) (url : str)
    (m : machine) (started now generated : datetime) :
  network_is_up m = false ->
  downtime_start m = Some started ->
  run_reply E (runs (made m)) = Done 0 ->
  now_reply E (clock_reads (made m)) = Done now ->
  utcnow_reply E (utc_clock_reads (made m)) = Done generated ->
  interrupts (post_reply E (posts (made m))) = false ->
  sleep_reply E (sleeps (made m)) = Done tt ->
  made (snd (tick E url m)) =
    {| runs := S (runs (made m)); clock_reads := S (clock_reads (made m));
       utc_clock_reads := S (utc_clock_reads (made m));
       posts := S (posts (made m)); sleeps := S (sleeps (made m)) |}.
Proof.
  intros Hup Hstart Hrun Hnow Hutc Hpost Hsleep. run_script.
  rewrite Hrun. cbn. rewrite Hnow. cbn. rewrite Hup, Hstart. cbn.
  rewrite Hutc. cbn.
  destruct (post_reply E (posts (made m))) as [status | e]; cbn.
  - destruct (status =? 204); cbn; rewrite Hsleep; reflexivity.
  - apply interrupts_false_Exception in Hpost.
    destruct e; try discriminate Hpost; cbn; rewrite Hsleep; reflexivity.
Qed.

Lemma plays_head (E : environment) (r c s : nat) (b : bool) (now : datetime)
    (rest : list (bool * datetime)) :
  plays E r c s ((b, now) :: rest) ->
  probe_says b (run_reply E r) /\
  now_reply E c = Done now /\
  sleep_reply E s = Done tt.
Proof.
  intros H. specialize (H 0%nat b now eq_refl).
  rewrite !Nat.add_0_r in H. exact H.
Qed.

Lemma plays_tail (E : environment) (r c s : nat) (tick : bool * datetime)
    (rest : list (bool * datetime)) :
  plays E r c s (tick :: rest) -> plays E (S r) (S c) (S s) rest.
Proof.
  intros H i b now Hi. specialize (H (S i) b now Hi).
  rewrite !Nat.add_succ_r in H. exact H.
Qed.

Lemma loop_reports_outages (E : environment) (url : str)
    (stamp : nat -> datetime) :
  (forall k, utcnow_reply E k = Done (stamp k)) ->
  (forall k, interrupts (post_reply E k) = false) ->
  forall ticks since m,
    downtime_start m = since ->
    network_is_up m = (match since with None => true | Some _ => false end) ->
    plays E (runs (made m)) (clock_reads (made m)) (sleeps (made m)) ticks ->
    exists m',
      while_true (length ticks) (tick E url) m = (Ret tt, m') /\
      posts_of (trace m') =
        posts_of (trace m)
        ++ reports E url stamp (notifier_entries m) (outages since ticks) /\
      downtime_start m' = still_down since ticks /\
      network_is_up m' =
        (match still_down since ticks with None => true | Some _ => false end).
Proof.
  intros Hutc Hpost.
  induction ticks as [| [b now] rest IH]; intros since m Hstart Hup Hplay.
  - exists m. cbn. rewrite app_nil_r. repeat split; assumption.
  - destruct (plays_head _ _ _ _ _ _ _ Hplay) as (Hrun & Hnow & Hsleep).
    apply plays_tail in Hplay.
    destruct b, since as [started |]; cbn [probe_says] in Hrun.
    + (* the network is back *)
      destruct (tick_network_restored E url m started now
                  (stamp (utc_clock_reads (made m))) Hup Hstart Hrun Hnow
                  (Hutc _)) as (Hposts & Hentries & Hstate).
      destruct (Hstate (Hpost _)) as (Hup1 & Hstart1 & Hret).
      specialize (Hret Hsleep).
      pose proof (tick_network_restored_counts E url m started now
                    (stamp (utc_clock_reads (made m))) Hup Hstart Hrun Hnow
                    (Hutc _) (Hpost _) Hsleep) as Hmade.
      destruct (tick E url m) as [o m1] eqn:Htick. cbn [fst snd] in *.
      subst o.
      destruct (IH None m1 Hstart1 Hup1) as (m' & Hloop & Hp & Hs & Hu).
      { rewrite Hmade. exact Hplay. }
      exists m'. cbn [length]. rewrite (while_true_step _ _ _ _ Htick).
      split; [exact Hloop |]. split; [| split; assumption].
      rewrite Hp, Hposts, Hentries, <- app_assoc. reflexivity.
    + (* the network is still up *)
      destruct (tick_network_ok E url m now Hup Hrun Hnow Hsleep)
        as (m1 & Htick & Hq & Hup1 & Hstart1 & Hposts).
      destruct (IH None m1) as (m' & Hloop & Hp & Hs & Hu);
        [congruence | exact Hup1 | rewrite Hq; exact Hplay |].
      exists m'. cbn [length]. rewrite (while_true_step _ _ _ _ Htick).
      split; [exact Hloop |]. split; [| split; assumption].
      rewrite Hp, Hposts. unfold notifier_entries. rewrite Hq. reflexivity.
    + (* the network is still down *)
      destruct (tick_network_still_down E url m started now Hup Hstart Hrun
                  Hnow Hsleep) as (m1 & Htick & Hq & Hup1 & Hstart1 & Hposts).
      destruct (IH (Some started) m1) as (m' & Hloop & Hp & Hs & Hu);
        [exact Hstart1 | exact Hup1 | rewrite Hq; exact Hplay |].
      exists m'. cbn [length]. rewrite (while_true_step _ _ _ _ Htick).
      split; [exact Hloop |]. split; [| split; assumption].
      rewrite Hp, Hposts. unfold notifier_entries. rewrite Hq. reflexivity.
    + (* the network is lost *)
      destruct (tick_network_lost E url m now Hup Hrun Hnow Hsleep)
        as (m1 & Htick & Hq & Hup1 & Hstart1 & Hposts).
      destruct (IH (Some now) m1) as (m' & Hloop & Hp & Hs & Hu);
        [exact Hstart1 | exact Hup1 | rewrite Hq; exact Hplay |].
      exists m'. cbn [length]. rewrite (while_true_step _ _ _ _ Htick).
      split; [exact Hloop |]. split; [| split; assumption].
      rewrite Hp, Hposts. unfold notifier_entries. rewrite Hq. reflexivity.
Qed.

(** X11: let the probes of a process give any sequence of results, one per
    tick, with no call cut short and the endpoint answering with any status
    or error.  Then the process reports every outage once, in order: one
    request for each run of failed probes that a successful probe ends,
    giving the instant read at the first failure of the run as start and
    the instant read at that success as end.  It is still running after
    these ticks, DOWN exactly when the last outage has not ended, with the
    start of that outage kept. *)
Theorem every_outage_reported_once (E : environment) (url : str)
    (stamp : nat -> datetime) (ticks : list (bool * datetime)) :
  fst (load_webhook_url E boot) = Ret url ->
  plays E 0 0 0 ticks ->
  (forall k, utcnow_reply E k = Done (stamp k)) ->
  (forall k, interrupts (post_reply E k) = false) ->
  fst (monitor_network E (length ticks) boot) = Ret tt /\
  posts_of (trace (snd (monitor_network E (length ticks) boot))) =
    reports E url stamp 0 (outages None ticks) /\
  downtime_start (snd (monitor_network E (length ticks) boot)) =
    still_down None ticks /\
  network_is_up (snd (monitor_network E (length ticks) boot)) =
    (match still_down None ticks with None => true | Some _ => false end).
Proof.
  intros Hload Hplay Hutc Hpost.
  destruct (process_start E (length ticks))
    as [(e & m & Hl & _) | (u & m & Hl & -> & Hup & Hstart & Hposts & Hmade)];
    rewrite Hl in Hload; [discriminate Hload |].
  cbn [fst] in Hload. injection Hload as ->.
  destruct (loop_reports_outages E url stamp Hutc Hpost ticks None
              (entered E m) Hstart Hup) as (m' & Hloop & Hp & Hs & Hu).
  { rewrite Hmade. exact Hplay. }
  rewrite Hloop. cbn [fst snd]. split; [reflexivity |].
  split; [| split; assumption].
  rewrite Hp, Hposts. unfold notifier_entries. rewrite Hmade. reflexivity.
Qed.

(** ** The rhythm of the loop *)

Lemma pace_app (t added : list event) :
  pace (t ++ added) = fold_left beat added (pace t).
Proof. unfold pace. apply fold_left_app. Qed.

Ltac same_pace :=
  unfold in_step; cbn [trace]; rewrite ?pace_app; cbn [fold_left beat];
  try reflexivity;
  try (destruct (pace _) as [[] |]; reflexivity).

Lemma print_in_step (s : str) (m : machine) :
  wp (print s) m (fun o m1 => o = Ret tt /\ in_step m m1).
Proof. unfold wp. cbn. split; [reflexivity |]. same_pace. Qed.

Lemma datetime_now_in_step (E : environment) (m : machine) :
  wp (datetime_now E) m (fun _ m1 => in_step m m1).
Proof. unfold wp. run_script. same_pace. Qed.

Lemma notifier_in_step (E : environment) (url : str)
    (started : option datetime) (restored : datetime) (duration : timedelta)
    (m : machine) :
  wp (send_discord_notification E url started restored duration) m
     (fun _ m1 => in_step m m1).
Proof.
  unfold wp. run_script. destruct started as [s |]; cbn; [| same_pace].
  destruct (utcnow_reply E (utc_clock_reads (made m))) as [u | e]; cbn;
    [| same_pace].
  destruct (post_reply E (posts (made m))) as [status | []]; cbn;
    try destruct (status =? 204); cbn; same_pace.
Qed.

Lemma load_in_step (E : environment) (m : machine) :
  wp (load_webhook_url E) m (fun _ m1 => in_step m m1).
Proof.
  unfold wp. run_script. destruct (webhook_file E) as [content | []]; cbn;
    try same_pace.
  destruct (negb (str_eqb (strip content) []) &&
            negb (startswith (strip content) (lit "http"))); cbn; same_pace.
Qed.

Lemma banner_in_step (E : environment) (m : machine) :
  wp (banner E) m (fun o m1 => o = Ret tt /\ in_step m m1).
Proof.
  unfold banner.
  repeat (apply wp_bind; eapply wp_weaken; [apply print_in_step |];
          intros ? ? (-> & ?)).
  eapply wp_weaken; [apply print_in_step |].
  intros ? ? (-> & ?). split; [reflexivity |].
  unfold in_step in *. congruence.
Qed.

Lemma ping_starts_beat (E : environment) (m : machine) :
  wp (ping E PING_TARGET PING_TIMEOUT) m
     (fun _ m1 => pace (trace m) = Some true -> pace (trace m1) = Some false).
Proof.
  unfold wp. run_script.
  destruct (run_reply E (runs (made m))) as [returncode | []]; cbn;
    intros Hm; rewrite ?pace_app, Hm; reflexivity.
Qed.

Lemma time_sleep_rests (E : environment) (m : machine) :
  wp (time_sleep E PING_INTERVAL) m
     (fun _ m1 => pace (trace m) <> None -> pace (trace m1) = Some true).
Proof.
  unfold wp. run_script. rewrite pace_app.
  destruct (pace (trace m)) as [[] |]; cbn; intros H; congruence.
Qed.

Lemma tick_body_beat (E : environment) (url : str) (m : machine) :
  pace (trace m) = Some true ->
  wp (tick_body E url) m
     (fun o m1 =>
        pace (trace m1) <> None /\
        (o = Ret tt -> pace (trace m1) = Some true)).
Proof.
  intros Hm. unfold tick_body.
  apply wp_bind. eapply wp_weaken; [apply (ping_starts_beat E) |].
  intros [is_reachable | e] m1 H1; specialize (H1 Hm);
    [| split; [congruence | discriminate]].
  apply wp_bind. eapply wp_weaken; [apply (datetime_now_in_step E) |].
  intros [current_time | e] m2 H2; unfold in_step in H2;
    [| split; [congruence | discriminate]].
  apply wp_bind.
  apply wp_weaken with (Q := fun _ m3 => in_step m2 m3).
  2: { intros [[] | e] m3 H3; unfold in_step in H3;
         [| split; [congruence | discriminate]].
       eapply wp_weaken; [apply (time_sleep_rests E) |].
       intros o4 m4 H4.
       assert (H : pace (trace m4) = Some true) by (apply H4; congruence).
       split; [congruence | intros _; exact H]. }
  clear.
  destruct is_reachable; unfold wp; run_locals;
    destruct (network_is_up m2); cbn [negb fst snd]; try same_pace;
    destruct (downtime_start m2) as [started |]; cbn [fst snd];
    try same_pace.
  match goal with
  | |- context [send_discord_notification E url ?a ?b ?c ?m'] =>
      pose proof (notifier_in_step E url a b c m') as N; unfold wp in N;
      destruct (send_discord_notification E url a b c m') as [[sent | e] m3]
  end; cbn [fst snd] in *; unfold in_step in *; cbn [trace] in *;
    rewrite ?pace_app; cbn [fold_left beat]; rewrite ?N; rewrite ?pace_app;
    cbn [fold_left beat];
    try reflexivity; destruct (pace (trace m2)) as [[] |]; reflexivity.
Qed.

Lemma tick_handler_rests (E : environment) (e : exn) (h : M unit)
    (m : machine) :
  tick_handler E e = Some h ->
  pace (trace m) <> None ->
  wp h m (fun o m1 =>
            pace (trace m1) <> None /\
            (o = Ret tt -> pace (trace m1) = Some true)).
Proof.
  intros Hh Hm. revert Hh.
  destruct e; cbn; intros [= <-]; unfold wp; run_script;
    rewrite ?pace_app; cbn [fold_left beat];
    destruct (pace (trace m)) as [[] |]; try congruence;
    split; try discriminate; try reflexivity; intros _; reflexivity.
Qed.

Lemma tick_beat (E : environment) (url : str) (m : machine) :
  pace (trace m) = Some true ->
  pace (trace (snd (tick E url m))) <> None /\
  (fst (tick E url m) = Ret tt -> pace (trace (snd (tick E url m))) = Some true).
Proof.
  intros Hm.
  change (wp (tick E url) m
            (fun o m1 =>
               pace (trace m1) <> None /\
               (o = Ret tt -> pace (trace m1) = Some true))).
  unfold tick. apply wp_try.
  eapply wp_weaken; [apply (tick_body_beat E url m Hm) |].
  intros [[] | e] m1 [H1 R1]; [split; assumption |].
  destruct (tick_handler E e) as [h |] eqn:Hh; [| split; assumption].
  apply (tick_handler_rests E e h m1 Hh H1).
Qed.

Lemma loop_beat (E : environment) (url : str) (ticks : nat) (m : machine) :
  pace (trace m) = Some true ->
  pace (trace (snd (while_true ticks (tick E url) m))) <> None /\
  (fst (while_true ticks (tick E url) m) = Ret tt ->
   pace (trace (snd (while_true ticks (tick E url) m))) = Some true).
Proof.
  revert m. induction ticks as [| ticks IH]; intros m Hm.
  - cbn. split; [congruence | intros _; exact Hm].
  - cbn [while_true]. unfold bind.
    destruct (tick_beat E url m Hm) as [H1 R1].
    destruct (tick E url m) as [[[] | e] m1]; cbn [fst snd] in *.
    + apply IH, R1. reflexivity.
    + split; [exact H1 | discriminate].
Qed.

(** X17: the process never probes twice in a row: between two probes it
    has always called [time.sleep], also when a tick ended in an error, and
    whatever the environment does.  While the loop runs, the last thing it
    did that counts is a sleep. *)
Theorem probes_are_spaced (E : environment) (ticks : nat) :
  pace (trace (snd (monitor_network E ticks boot))) <> None /\
  (fst (monitor_network E ticks boot) = Ret tt ->
   pace (trace (snd (monitor_network E ticks boot))) = Some true).
Proof.
  pose proof (load_in_step E boot) as Hload. unfold wp, in_step in Hload.
  destruct (load_webhook_url E boot) as [[url | e] m1] eqn:Hm1;
    cbn [fst snd] in Hload.
  - rewrite (monitor_network_enters E ticks boot m1 url Hm1).
    apply loop_beat.
    pose proof (banner_in_step E m1) as [_ Hb]. unfold in_step in Hb.
    unfold entered. cbn [trace]. rewrite Hb, Hload. reflexivity.
  - unfold monitor_network, bind. rewrite Hm1. cbn [fst snd].
    split; [rewrite Hload; discriminate | discriminate].
Qed.

(** ** A blank credential file *)

Lemma lstrip_blank (s : str) : forallb isspace s = true -> lstrip s = [].
Proof.
  induction s as [| c s IH]; [reflexivity |].
  cbn [forallb lstrip]. intros H. apply andb_prop in H as [Hc Hs].
  rewrite Hc. apply IH, Hs.
Qed.

Lemma strip_blank (s : str) : forallb isspace s = true -> strip s = [].
Proof. intros H. unfold strip. rewrite (lstrip_blank s H). reflexivity. Qed.

Lemma print_logs (s : str) (m : machine) :
  wp (print s) m
     (fun o m1 =>
        o = Ret tt /\ In (Write (s ++ NL)) (trace m1) /\
        (forall e, In e (trace m) -> In e (trace m1))).
Proof.
  unfold wp. cbn. split; [reflexivity |].
  split; [apply in_or_app; right; left; reflexivity |].
  intros e He. apply in_or_app. left. exact He.
Qed.

Lemma banner_announces_webhook (E : environment) (m : machine) :
  In (Write (lit " ++ Discord webhook configured" ++ NL))
     (trace (snd (banner E m))).
Proof.
  change (wp (banner E) m
            (fun _ m1 =>
               In (Write (lit " ++ Discord webhook configured" ++ NL))
                  (trace m1))).
  unfold banner.
  do 6 (apply wp_bind; eapply wp_weaken; [apply print_logs |];
        intros ? ? (-> & _ & _)).
  apply wp_bind; eapply wp_weaken; [apply print_logs |].
  intros ? ? (-> & H & _).
  do 3 (apply wp_bind; eapply wp_weaken; [apply print_logs |];
        intros ? ? (-> & _ & K); apply K in H; clear K).
  eapply wp_weaken; [apply print_logs |].
  intros ? ? (_ & _ & K). apply K, H.
Qed.

(** X18: a credential file that holds nothing but white space is accepted
    like an empty one: the load prints nothing and returns the empty
    address, the banner announces the webhook as configured, and the loop
    runs with the empty address as the target of its reports. *)
Theorem blank_credential_is_accepted (E : environment) (content : str)
    (ticks : nat) (m : machine) :
  webhook_file E = Done content ->
  forallb isspace content = true ->
  load_webhook_url E m = (Ret [], m) /\
  monitor_network E ticks m = while_true ticks (tick E []) (entered E m) /\
  In (Write (lit " ++ Discord webhook configured" ++ NL))
     (trace (entered E m)).
Proof.
  intros Hfile Hblank.
  assert (Hload : load_webhook_url E m = (Ret [], m)).
  { run_script. rewrite Hfile. cbn. rewrite (strip_blank content Hblank).
    reflexivity. }
  split; [exact Hload |]. split.
  - apply monitor_network_enters, Hload.
  - unfold entered. cbn [trace]. apply banner_announces_webhook.
Qed.

(** * Instances *)

Lemma single_outage_reported_once_witness :
  fst (load_webhook_url one_outage boot) = Ret hook /\
  notifier_entries (snd (monitor_network one_outage 6 boot)) = 1%nat /\
  posts_of (trace (snd (monitor_network one_outage 6 boot))) =
    [Post hook
       (notification (lit "2023-11-14 22:13:30") (lit "2023-11-14 22:13:45")
                     (lit "15 seconds")
                     (lit "2023-11-14T23:13:45.250000+00:00"))
       10].
Proof.
  split; [reflexivity |].
  refine ((fun H => conj (proj1 H) (proj1 (proj2 H)))
            (single_outage_reported_once one_outage hook
               1700000000000000 1700000005000000 1700000010000000
               1700000015000000 1700000020000000 1700000025000000
               1700003625250000 _ _ _ _ _)).
  - reflexivity.
  - repeat constructor; cbn; discriminate.
  - reflexivity.
  - intros k _. destruct k; reflexivity.
  - reflexivity.
Defined.

Lemma downtime_start_set_iff_down_witness :
  consistent (down_since 1700000010000000) /\
  consistent (snd (tick one_outage hook (down_since 1700000010000000))) /\
  network_is_up boot = true /\ downtime_start boot = None /\
  consistent (snd (while_true 4 (tick one_outage hook) boot)).
Proof.
  assert (H0 : consistent (down_since 1700000010000000)).
  { split; [reflexivity | intros _; discriminate]. }
  destruct (downtime_start_set_iff_down one_outage hook) as (Htick & Hloop & _).
  split; [exact H0 |]. split; [apply Htick, H0 |].
  split; [reflexivity |]. split; [reflexivity |].
  apply Hloop; reflexivity.
Defined.

Lemma notifier_called_only_on_recovery_witness :
  posts_of (trace (snd (monitor_network
                          (steady (Done hook) (Done 0) (Done 204)) 10 boot)))
    = [] /\
  posts_of (trace (snd (monitor_network
                          (steady (Done hook) (Done 1) (Done 204)) 10 boot)))
    = [] /\
  fst (monitor_network (steady (Done hook) (Done 1) (Done 204)) 10 boot)
    = Ret tt /\
  runs (made (snd (monitor_network
                     (steady (Done hook) (Done 1) (Done 204)) 10 boot)))
    = 10%nat.
Proof.
  destruct (notifier_called_only_on_recovery
              (steady (Done hook) (Done 0) (Done 204))) as (_ & Hup & _).
  destruct (notifier_called_only_on_recovery
              (steady (Done hook) (Done 1) (Done 204))) as (_ & _ & Hdown).
  split; [apply Hup; intros k; reflexivity |].
  destruct (Hdown 10%nat) as (Hposts & _ & Hruns);
    [intros k; cbn; discriminate |].
  split; [exact Hposts |].
  apply (Hruns hook);
    [reflexivity | intros k; eexists; reflexivity | intros k; reflexivity].
Defined.

Lemma ping_collapses_failures_witness :
  interrupts
    (run_reply (steady (Done hook) (Fails (TimeoutExpired (lit "timed out")))
                       (Done 204))
               (runs (made boot))) = false /\
  exists (b : bool) (m' : machine),
    ping (steady (Done hook) (Fails (TimeoutExpired (lit "timed out")))
                 (Done 204))
         PING_TARGET PING_TIMEOUT boot = (Ret b, m') /\
    b = false.
Proof.
  split; [reflexivity |].
  destruct (ping_collapses_failures
              (steady (Done hook) (Fails (TimeoutExpired (lit "timed out")))
                      (Done 204))
              PING_TARGET PING_TIMEOUT boot)
    as (b & m' & Hping & _ & Hfalse); [reflexivity |].
  exists b, m'. split; [exact Hping | apply Hfalse; reflexivity].
Defined.

Lemma notifier_succeeds_iff_204_witness :
  utcnow_reply (steady (Done hook) (Done 0) (Done 500))
               (utc_clock_reads (made boot)) = Done 1700000000000000 /\
  interrupts (post_reply (steady (Done hook) (Done 0) (Done 500))
                         (posts (made boot))) = false /\
  exists (m' : machine),
    send_discord_notification (steady (Done hook) (Done 0) (Done 500)) hook
      (Some 1700000010000000) 1700000025000000 15000000 boot
      = (Ret false, m').
Proof.
  split; [reflexivity |]. split; [reflexivity |].
  destruct (notifier_succeeds_iff_204
              (steady (Done hook) (Done 0) (Done 500)) hook
              1700000010000000 1700000025000000 15000000 1700000000000000
              boot)
    as (b & m' & Hsend & Hiff & _); [reflexivity | reflexivity |].
  exists m'. destruct b; [| exact Hsend].
  destruct Hiff as [Hiff _]. discriminate (Hiff eq_refl).
Defined.

Lemma credential_file_at_startup_witness :
  exit_status
    (fst (monitor_network
            (steady (Fails (FileNotFoundError (lit "No such file")))
                    (Done 0) (Done 204)) 3 boot)) = Some 1 /\
  exit_status
    (fst (monitor_network
            (steady (Done (lit "not-a-url")) (Done 0) (Done 204)) 3 boot))
    = Some 1 /\
  load_webhook_url (steady (Done (lit "  ")) (Done 0) (Done 204)) boot
    = (Ret [], boot).
Proof.
  destruct (credential_file_at_startup
              (steady (Fails (FileNotFoundError (lit "No such file")))
                      (Done 0) (Done 204)) boot) as (Hmissing & _ & _).
  destruct (credential_file_at_startup
              (steady (Done (lit "not-a-url")) (Done 0) (Done 204)) boot)
    as (_ & Hinvalid & _).
  destruct (credential_file_at_startup
              (steady (Done (lit "  ")) (Done 0) (Done 204)) boot)
    as (_ & _ & Hempty).
  split; [| split].
  - destruct (Hmissing (lit "No such file") 3%nat) as (m' & _ & Hexit & _);
      [reflexivity | exact Hexit].
  - destruct (Hinvalid (lit "not-a-url") 3%nat) as (m' & _ & Hexit & _);
      [reflexivity | vm_compute; discriminate | reflexivity | exact Hexit].
  - apply (Hempty (lit "  ")); reflexivity.
Defined.

Lemma recovery_tick_reports_once_witness :
  network_is_up
    (snd (tick (steady (Done hook) (Done 0) (Done 500)) hook
               (down_since 1699999990000000))) = true /\
  downtime_start
    (snd (tick (steady (Done hook) (Done 0) (Done 500)) hook
               (down_since 1699999990000000))) = None /\
  length
    (posts_of
       (trace (snd (tick (steady (Done hook) (Done 0) (Done 500)) hook
                         (down_since 1699999990000000))))) = 1%nat /\
  fst (tick (steady (Done hook) (Done 0) (Done 500)) hook
            (down_since 1699999990000000)) = Ret tt.
Proof.
  destruct (recovery_tick_reports_once
              (steady (Done hook) (Done 0) (Done 500)) hook
              (down_since 1699999990000000)
              1699999990000000 1700000000000000 1700000000000000)
    as (Hup & Hstart & _ & Hposts & Hgoes); try reflexivity.
  split; [exact Hup |]. split; [exact Hstart |].
  split; [rewrite Hposts; reflexivity | apply Hgoes; reflexivity].
Defined.

Lemma credential_check_is_prefix_test_witness :
  load_webhook_url
    (steady (Done (lit "  httpgarbage" ++ NL)) (Done 0) (Done 204)) boot
    = (Ret (lit "httpgarbage"), boot).
Proof.
  destruct (credential_check_is_prefix_test
              (steady (Done (lit "  httpgarbage" ++ NL)) (Done 0) (Done 204))
              boot) as (Hcheck & _).
  destruct (Hcheck (lit "  httpgarbage" ++ NL)) as (Hload & _);
    [reflexivity | vm_compute; discriminate | reflexivity | exact Hload].
Defined.


Lemma format_duration_units_witness :
  0 <= 2 /\ 0 <= 0 < 60 /\ 0 <= 5 < 60 /\
  format_duration (timedelta_seconds (3600 * 2 + 60 * 0 + 5))
    = lit "2 hours, 5 seconds".
Proof.
  split; [lia |]. split; [lia |]. split; [lia |].
  rewrite (format_duration_units 2 0 5); [reflexivity | lia | lia | lia].
Defined.

Lemma format_duration_negative_witness :
  -61 < 0 /\
  format_duration (timedelta_seconds (-61)) = lit "58 minutes, 59 seconds".
Proof.
  split; [lia |].
  rewrite (format_duration_negative (-61)); [reflexivity | lia].
Defined.

Lemma load_webhook_url_returns_witness :
  load_webhook_url
    (steady (Done (lit "  httpgarbage" ++ NL)) (Done 0) (Done 204)) boot
    = (Ret (lit "httpgarbage"), boot) /\
  strip (lit "httpgarbage") = lit "httpgarbage" /\
  (lit "httpgarbage" = [] \/
   startswith (lit "httpgarbage") (lit "http") = true).
Proof.
  assert (H : load_webhook_url
                (steady (Done (lit "  httpgarbage" ++ NL)) (Done 0) (Done 204))
                boot = (Ret (lit "httpgarbage"), boot)) by reflexivity.
  split; [exact H |].
  destruct (load_webhook_url_returns _ _ _ _ H) as (_ & _ & Hstrip & Hprefix).
  split; assumption.
Defined.

Lemma unreadable_credential_is_not_caught_witness :
  monitor_network
    (steady (Fails (OtherError (lit "Permission denied"))) (Done 0) (Done 204))
    3 boot
    = (Raise (OtherError (lit "Permission denied")), boot) /\
  exit_status
    (fst (monitor_network
            (steady (Fails (OtherError (lit "Permission denied")))
                    (Done 0) (Done 204)) 3 boot)) = Some 1.
Proof.
  destruct (unreadable_credential_is_not_caught
              (steady (Fails (OtherError (lit "Permission denied")))
                      (Done 0) (Done 204))
              boot (OtherError (lit "Permission denied")) 3)
    as (_ & Hrun & Hexit); [reflexivity | discriminate |].
  split; [exact Hrun | apply Hexit; reflexivity].
Defined.

Lemma ping_lets_interrupts_through_witness :
  fst (ping (steady (Done hook) (Fails KeyboardInterrupt) (Done 204))
            PING_TARGET PING_TIMEOUT boot) = Raise KeyboardInterrupt.
Proof.
  apply (ping_lets_interrupts_through
           (steady (Done hook) (Fails KeyboardInterrupt) (Done 204))
           PING_TARGET PING_TIMEOUT boot KeyboardInterrupt);
    reflexivity.
Defined.

Lemma notifier_lets_through_witness :
  fst (send_discord_notification
         (scripted (lit "Linux") (Done hook) [] []
                   [Fails (OtherError (lit "out of memory"))] [] [])
         hook (Some 1700000010000000) 1700000025000000 15000000 boot)
    = Raise (OtherError (lit "out of memory")) /\
  fst (send_discord_notification
         (steady (Done hook) (Done 0) (Fails KeyboardInterrupt))
         hook (Some 1700000010000000) 1700000025000000 15000000 boot)
    = Raise KeyboardInterrupt.
Proof.
  split.
  - destruct (notifier_lets_through
                (scripted (lit "Linux") (Done hook) [] []
                          [Fails (OtherError (lit "out of memory"))] [] [])
                hook 1700000010000000 1700000025000000 15000000 boot)
      as (Hclock & _).
    apply (Hclock (OtherError (lit "out of memory"))). reflexivity.
  - destruct (notifier_lets_through
                (steady (Done hook) (Done 0) (Fails KeyboardInterrupt))
                hook 1700000010000000 1700000025000000 15000000 boot)
      as (_ & Hrequest & _).
    apply (Hrequest 1700000000000000 KeyboardInterrupt); reflexivity.
Defined.

Lemma state_machine_moves_witness :
  network_is_up (down_since 1699999990000000) = false /\
  downtime_start (down_since 1699999990000000) = Some 1699999990000000 /\
  (network_is_up
     (snd (tick (steady (Done hook) (Done 1) (Done 204)) hook
                (down_since 1699999990000000))) = false /\
   downtime_start
     (snd (tick (steady (Done hook) (Done 1) (Done 204)) hook
                (down_since 1699999990000000))) = Some 1699999990000000 \/
   network_is_up
     (snd (tick (steady (Done hook) (Done 1) (Done 204)) hook
                (down_since 1699999990000000))) = true /\
   downtime_start
     (snd (tick (steady (Done hook) (Done 1) (Done 204)) hook
                (down_since 1699999990000000))) = None /\
   exists p,
     posts_of
       (trace (snd (tick (steady (Done hook) (Done 1) (Done 204)) hook
                         (down_since 1699999990000000))))
     = posts_of (trace (down_since 1699999990000000)) ++ [p]).
Proof.
  split; [reflexivity |]. split; [reflexivity |].
  apply (proj2 (state_machine_moves
                  (steady (Done hook) (Done 1) (Done 204)) hook
                  (down_since 1699999990000000))); reflexivity.
Defined.

Lemma tick_probes_once_witness :
  fst (while_true 3 (tick (steady (Done hook) (Done 0) (Done 204)) hook) boot)
    = Ret tt /\
  runs (made (snd (while_true 3
                     (tick (steady (Done hook) (Done 0) (Done 204)) hook)
                     boot))) = 3%nat.
Proof.
  split; [reflexivity |].
  destruct (tick_probes_once (steady (Done hook) (Done 0) (Done 204)) hook)
    as (_ & Hloop).
  destruct (Hloop 3%nat boot) as (_ & Hruns).
  apply Hruns. reflexivity.
Defined.

Lemma process_makes_allowed_calls_only_witness :
  load_webhook_url one_outage boot = (Ret hook, boot) /\
  Forall (allowed one_outage hook)
         (trace (snd (monitor_network one_outage 6 boot))).
Proof.
  split; [reflexivity |].
  apply (process_makes_allowed_calls_only one_outage 6 hook boot).
  reflexivity.
Defined.

Lemma every_outage_reported_once_witness :
  posts_of (trace (snd (monitor_network one_outage 6 boot))) =
    reports one_outage hook
            (fun k => match k with
                      | O => 1700003625250000
                      | S _ => 0
                      end)
            0 [(1700000010000000, 1700000025000000)] /\
  downtime_start (snd (monitor_network one_outage 6 boot)) = None.
Proof.
  destruct (every_outage_reported_once one_outage hook
              (fun k => match k with
                        | O => 1700003625250000
                        | S _ => 0
                        end)
              [(true, 1700000000000000); (true, 1700000005000000);
               (false, 1700000010000000); (false, 1700000015000000);
               (false, 1700000020000000); (true, 1700000025000000)])
    as (_ & Hposts & Hstart & _).
  - reflexivity.
  - intros i b now Hi.
    do 6 (destruct i as [| i];
          [injection Hi as <- <-; repeat split; cbn; discriminate |]).
    destruct i; discriminate Hi.
  - intros k. destruct k as [| [| k]]; reflexivity.
  - intros k. destruct k as [| [| k]]; reflexivity.
  - split; [exact Hposts | exact Hstart].
Defined.

Lemma interrupt_while_probing_witness :
  fst (tick (steady (Done hook) (Fails KeyboardInterrupt) (Done 204)) hook
            (down_since 1699999990000000)) = Raise (SystemExit 0) /\
  posts_of
    (trace (snd (tick (steady (Done hook) (Fails KeyboardInterrupt) (Done 204))
                      hook (down_since 1699999990000000)))) = [].
Proof.
  destruct (interrupt_while_probing
              (steady (Done hook) (Fails KeyboardInterrupt) (Done 204)) hook
              (down_since 1699999990000000)) as (Hexit & _ & _ & Hposts & _);
    [reflexivity |].
  split; [exact Hexit | exact Hposts].
Defined.

Lemma interrupt_while_asleep_down_witness :
  fst (tick (scripted (lit "Linux") (Done hook) [Done 1]
                      [Done 1700000000000000] [] []
                      [Fails KeyboardInterrupt])
            hook (down_since 1699999990000000)) = Raise (SystemExit 0) /\
  network_is_up
    (snd (tick (scripted (lit "Linux") (Done hook) [Done 1]
                         [Done 1700000000000000] [] []
                         [Fails KeyboardInterrupt])
               hook (down_since 1699999990000000))) = false.
Proof.
  destruct (interrupt_while_asleep_down
              (scripted (lit "Linux") (Done hook) [Done 1]
                        [Done 1700000000000000] [] []
                        [Fails KeyboardInterrupt])
              hook (down_since 1699999990000000)
              1699999990000000 1700000000000000)
    as (Hexit & Hup & _); try reflexivity.
  - cbn. discriminate.
  - split; [exact Hexit | exact Hup].
Defined.

Lemma interrupt_while_notifying_witness :
  fst (tick (steady (Done hook) (Done 0) (Fails KeyboardInterrupt)) hook
            (down_since 1699999990000000)) = Raise (SystemExit 0).
Proof.
  destruct (interrupt_while_notifying
              (steady (Done hook) (Done 0) (Fails KeyboardInterrupt)) hook
              (down_since 1699999990000000)
              1699999990000000 1700000000000000 1700000000000000)
    as (Hexit & _); [reflexivity .. | exact Hexit].
Defined.

Lemma error_in_body_is_logged_witness :
  fst (tick (scripted (lit "Linux") (Done hook) [Done 0]
                      [Fails (OtherError (lit "out of memory"))] [] [] [])
            hook boot) = Ret tt.
Proof.
  apply (error_in_body_is_logged
           (scripted (lit "Linux") (Done hook) [Done 0]
                     [Fails (OtherError (lit "out of memory"))] [] [] [])
           hook boot (OtherError (lit "out of memory"))); reflexivity.
Defined.

Lemma blank_credential_is_accepted_witness :
  forallb isspace (lit "  " ++ NL) = true /\
  load_webhook_url (steady (Done (lit "  " ++ NL)) (Done 0) (Done 204)) boot
    = (Ret [], boot).
Proof.
  split; [reflexivity |].
  destruct (blank_credential_is_accepted
              (steady (Done (lit "  " ++ NL)) (Done 0) (Done 204))
              (lit "  " ++ NL) 0 boot) as (Hload & _);
    [reflexivity | reflexivity | exact Hload].
Defined.
